(** * Presupuesto Familiar: aggregation and alert engine

    A shallow embedding of the request handlers of [src/main.py] that
    compute the annual summary, the over-budget alert feed, the dismissal
    operations and the annual spreadsheet export, followed by the
    properties the specification states about them.

    Conventions of the embedding.
    - Amounts are Python floats; they are embedded as rationals [Q],
      which are exact.  Float addition is not associative and a float
      quotient does not cancel, so a property of a sum or of a quotient
      is stated on the operations the code performs, in the order in
      which it performs them, and not on a regrouped sum.  [=] is used
      where both sides are built by the same operations; [==] where
      they differ by the addition to an initial [0] or where an example
      is evaluated to a number.
    - The documents read from the store are raw dictionaries which the
      handlers access with [d.get(key, default)]; a field that may be
      absent is an [option] and [default] supplies the fallback.
    - Input dictionaries whose iteration order the code depends on
      ([income], [category_expenses]) are association lists in insertion
      order; the dictionaries the handlers build ([expense_by_category],
      [member_contributions]) are finite maps, and the set of dismissed
      keys is a finite set.
    - A collection of the store is the list of its documents in natural
      (insertion) order; [insert_one] appends, [to_list n] keeps the
      first [n] documents of a cursor.
    - The handlers raise exceptions; a handler returns a [result]. *)

From Stdlib Require Import QArith ZArith List Sorted Permutation Lia.
From stdpp Require Import gmap strings list fin_maps pretty.

(** ** Python numbers and exceptions *)

Inductive exn : Type :=
| ZeroDivisionError
| HTTPException (status_code : Z) (detail : string).

Inductive result (A : Type) : Type :=
| Ok (a : A)
| Raise (e : exn).

Arguments Ok {A} a.
Arguments Raise {A} e.

#[global] Instance result_ret : MRet result := fun A a => Ok a.

#[global] Instance result_bind : MBind result := fun A B k r =>
  match r with
  | Ok a => k a
  | Raise e => Raise e
  end.

(** A [for] loop whose body may raise: the accumulator is threaded
    through the items in order and the first exception ends the loop. *)
Fixpoint foldM {A S : Type} (f : S -> A -> result S) (l : list A) (s : S)
  : result S :=
  match l with
  | [] => Ok s
  | x :: l' =>
      match f s x with
      | Ok s' => foldM f l' s'
      | Raise e => Raise e
      end
  end.

(** [sum(xs)]: left-to-right additions starting from [0]. *)
Definition py_sum (xs : list Q) : Q := fold_left Qplus xs 0%Q.

(** [x > y] on numbers. *)
Definition Qgtb (x y : Q) : bool := negb (Qle_bool x y).

(** [x / y]: true division, raising on a zero divisor. *)
Definition py_div (x y : Q) : result Q :=
  if Qeq_bool y 0 then Raise ZeroDivisionError else Ok (x / y)%Q.

(** [str(x)] for an optional string, as an f-string renders the result
    of [d.get(key)]. *)
Definition py_str (o : option string) : string := default "None" o.

(** ** Data model *)

Module FamilyMember.
Record t : Type := mk {
  id : string;
  name : string;
  percentage : Q
}.
End FamilyMember.

Module ExpenseCategory.
Record t : Type := mk {
  id : string;
  name : string;
  icon : string;
  color : string
}.
End ExpenseCategory.

Module ExpenseItem.
Record t : Type := mk {
  name : option string;
  budget : option Q;
  actual : option Q;
  category_id : option string
}.
End ExpenseItem.

Module FamilyConfig.
Record t : Type := mk {
  members : option (list FamilyMember.t);
  categories : option (list ExpenseCategory.t)
}.
End FamilyConfig.

(** A month document.  [year] and [month] are the key of the collection
    and always present; every other field is read with a default. *)
Module MonthData.
Record t : Type := mk {
  year : Z;
  month : Z;
  month_name : option string;
  income : option (list (string * Q));
  fixed_expenses : option (list ExpenseItem.t);
  variable_expenses : option (list ExpenseItem.t);
  category_expenses : option (list (string * list ExpenseItem.t));
  bank_balances : option (list (string * Q))
}.
End MonthData.

Module DismissedAlert.
Record t : Type := mk {
  alert_key : string;
  dismissed_at : string
}.
End DismissedAlert.

(** An alert as [get_alerts] builds it.  Its [id] is a fresh random
    uuid which is no function of the inputs and is left out. *)
Module Alert.
Record t : Type := mk {
  alert_key : string;
  month : string;
  year : Z;
  month_num : Z;
  category : string;
  item_name : option string;
  budget : Q;
  actual : Q;
  overage : Q;
  percentage_over : Q
}.
End Alert.

Module MonthlySummary.
Record t : Type := mk {
  month : Z;
  month_name : option string;
  income : Q;
  expenses : Q;
  savings : Q;
  fixed_expenses : Q;
  variable_expenses : Q;
  category_expenses : Q;
  bank_balances : list (string * Q)
}.
End MonthlySummary.

Module SavingsProjection.
Record t : Type := mk {
  current_savings : Q;
  avg_monthly_savings : Q;
  projected_annual_savings : Q;
  months_tracked : nat;
  remaining_months : Z
}.
End SavingsProjection.

Module AnnualSummary.
Record t : Type := mk {
  year : Z;
  total_income : Q;
  total_expenses : Q;
  total_savings : Q;
  monthly_data : list MonthlySummary.t;
  expense_by_category : gmap string Q;
  member_contributions : gmap string Q;
  savings_projection : SavingsProjection.t
}.
End AnnualSummary.

(** ** The document store *)

Record Db : Type := mkDb {
  family_config : list FamilyConfig.t;
  budget_months : list MonthData.t;
  dismissed_alerts : list DismissedAlert.t
}.

(** [cursor.to_list(n)] *)
Definition to_list {A : Type} (n : nat) (cursor : list A) : list A :=
  take n cursor.

(** ** Stable sorting

    [sorted(..)] and the store's [sort] are modelled by a stable
    insertion sort.  [before y x] says that [y] is strictly ahead of
    [x] in the requested order; an element is inserted in front of the
    first element that is not strictly ahead of it, so elements that
    compare equal keep their input order. *)

Section StableSort.
Context {A : Type} (before : A -> A -> bool).

Fixpoint insert_sorted (x : A) (l : list A) : list A :=
  match l with
  | [] => [x]
  | y :: l' => if before y x then y :: insert_sorted x l' else x :: y :: l'
  end.

Definition stable_sort (l : list A) : list A :=
  fold_right insert_sorted [] l.
End StableSort.

(** [find({"year": year}).sort("month", 1).to_list(12)] *)
Definition month_before (a b : MonthData.t) : bool :=
  (MonthData.month a <? MonthData.month b)%Z.

Definition find_year (year : Z) (db : Db) : list MonthData.t :=
  to_list 12
    (stable_sort month_before
       (List.filter (fun m => (MonthData.year m =? year)%Z) (budget_months db))).

(** [sorted(alerts, key=lambda x: x.get("overage", 0), reverse=True)] *)
Definition overage_before (a b : Alert.t) : bool :=
  Qgtb (Alert.overage a) (Alert.overage b).

Definition sorted_by_overage_desc (alerts : list Alert.t) : list Alert.t :=
  stable_sort overage_before alerts.

(** ** Family configuration *)

Section Handlers.

(** The document [get_family_config] inserts when the collection is
    empty (its ids and timestamps are drawn from the runtime), and the
    clock: [now n] is the reading of [datetime.now(timezone.utc).isoformat()]
    stored in the record that becomes entry [n] of the dismissal log. *)
Context (default_config : FamilyConfig.t) (now : nat -> string).

Definition get_family_config (db : Db) : FamilyConfig.t * Db :=
  match family_config db with
  | config :: _ => (config, db)
  | [] =>
      (default_config,
       {| family_config := [default_config];
          budget_months := budget_months db;
          dismissed_alerts := dismissed_alerts db |})
  end.

(** [next((c["name"] for c in config.get("categories", []) if c["id"] == cat_id), "Otros")] *)
Definition category_name (config : FamilyConfig.t) (cat_id : string) : string :=
  match
    List.find (fun c => String.eqb (ExpenseCategory.id c) cat_id)
      (default [] (FamilyConfig.categories config))
  with
  | Some c => ExpenseCategory.name c
  | None => "Otros"
  end.

(** [next((mem for mem in config.get("members", []) if mem["id"] == member_id), None)] *)
Definition find_member (config : FamilyConfig.t) (member_id : string)
  : option FamilyMember.t :=
  List.find (fun mem => String.eqb (FamilyMember.id mem) member_id)
    (default [] (FamilyConfig.members config)).

(** ** Alerts *)

Definition exp_budget (exp : ExpenseItem.t) : Q := default 0%Q (ExpenseItem.budget exp).
Definition exp_actual (exp : ExpenseItem.t) : Q := default 0%Q (ExpenseItem.actual exp).

(** [exp.get("actual", 0) > exp.get("budget", 0) and exp.get("budget", 0) > 0] *)
Definition over_budget (exp : ExpenseItem.t) : bool :=
  Qgtb (exp_actual exp) (exp_budget exp) && Qgtb (exp_budget exp) 0.

(** [f"{year}-{month_num}-{tag}-{exp.get('name')}"] *)
Definition make_alert_key (m : MonthData.t) (tag : string) (exp : ExpenseItem.t)
  : string :=
  pretty (MonthData.year m) +:+ "-" +:+ pretty (MonthData.month m) +:+ "-"
    +:+ tag +:+ "-" +:+ py_str (ExpenseItem.name exp).

(** [m.get("month_name", f"{m.get('year')}-{m.get('month')}")] *)
Definition alert_month_name (m : MonthData.t) : string :=
  default (pretty (MonthData.year m) +:+ "-" +:+ pretty (MonthData.month m))
    (MonthData.month_name m).

(** The dictionary appended to [alerts]; the division is evaluated while
    the dictionary is built and may raise. *)
Definition make_alert (m : MonthData.t) (tag category : string) (exp : ExpenseItem.t)
  : result Alert.t :=
  q ← py_div (exp_actual exp - exp_budget exp) (default 1%Q (ExpenseItem.budget exp));
  Ok {| Alert.alert_key := make_alert_key m tag exp;
        Alert.month := alert_month_name m;
        Alert.year := MonthData.year m;
        Alert.month_num := MonthData.month m;
        Alert.category := category;
        Alert.item_name := ExpenseItem.name exp;
        Alert.budget := exp_budget exp;
        Alert.actual := exp_actual exp;
        Alert.overage := exp_actual exp - exp_budget exp;
        Alert.percentage_over := q * 100 |}.

(** The body of each of the three inner loops of [get_alerts]. *)
Definition scan_item (dismissed_keys : gset string) (m : MonthData.t)
    (tag category : string) (alerts : list Alert.t) (exp : ExpenseItem.t)
  : result (list Alert.t) :=
  if over_budget exp then
    let alert_key := make_alert_key m tag exp in
    if bool_decide (alert_key ∉ dismissed_keys) then
      a ← make_alert m tag category exp;
      Ok (alerts ++ [a])
    else Ok alerts
  else Ok alerts.

(** The body of [for m in months] in [get_alerts]. *)
Definition scan_month (config : FamilyConfig.t) (dismissed_keys : gset string)
    (alerts : list Alert.t) (m : MonthData.t) : result (list Alert.t) :=
  alerts ← foldM (scan_item dismissed_keys m "fixed" "Gastos Fijos")
             (default [] (MonthData.fixed_expenses m)) alerts;
  alerts ← foldM (scan_item dismissed_keys m "variable" "Gastos Variables")
             (default [] (MonthData.variable_expenses m)) alerts;
  foldM
    (fun alerts '(cat_id, expenses) =>
       let cat_name := category_name config cat_id in
       foldM (scan_item dismissed_keys m cat_id cat_name) expenses alerts)
    (default [] (MonthData.category_expenses m)) alerts.

Definition get_alerts (db : Db) : result (list Alert.t) * Db :=
  let months := to_list 1000 (budget_months db) in
  let '(config, db) := get_family_config db in
  let dismissed := to_list 1000 (dismissed_alerts db) in
  let dismissed_keys : gset string :=
    list_to_set (map DismissedAlert.alert_key dismissed) in
  (alerts ← foldM (scan_month config dismissed_keys) months [];
   Ok (sorted_by_overage_desc alerts), db).

(** [dismiss_alert]: one [insert_one] into the dismissal log. *)
Definition insert_dismissed (alert_key : string) (log : list DismissedAlert.t)
  : list DismissedAlert.t :=
  log ++ [ {| DismissedAlert.alert_key := alert_key;
              DismissedAlert.dismissed_at := now (length log) |} ].

Definition dismiss_alert (alert_key : string) (db : Db) : string * Db :=
  ("Alerta descartada",
   {| family_config := family_config db;
      budget_months := budget_months db;
      dismissed_alerts := insert_dismissed alert_key (dismissed_alerts db) |}).

(** [find_one({"alert_key": alert_key})] on the dismissal log. *)
Definition find_dismissed (alert_key : string) (log : list DismissedAlert.t)
  : option DismissedAlert.t :=
  List.find (fun d => String.eqb (DismissedAlert.alert_key d) alert_key) log.

(** The body of each inner loop of [clear_all_alerts]; the state is the
    dismissal log and [dismissed_count]. *)
Definition clear_item (m : MonthData.t) (tag : string)
    (st : list DismissedAlert.t * nat) (exp : ExpenseItem.t)
  : list DismissedAlert.t * nat :=
  if over_budget exp then
    let alert_key := make_alert_key m tag exp in
    match find_dismissed alert_key (fst st) with
    | Some _ => st
    | None => (insert_dismissed alert_key (fst st), S (snd st))
    end
  else st.

Definition clear_month (st : list DismissedAlert.t * nat) (m : MonthData.t)
  : list DismissedAlert.t * nat :=
  let st := fold_left (clear_item m "fixed")
              (default [] (MonthData.fixed_expenses m)) st in
  let st := fold_left (clear_item m "variable")
              (default [] (MonthData.variable_expenses m)) st in
  fold_left
    (fun st '(cat_id, expenses) => fold_left (clear_item m cat_id) expenses st)
    (default [] (MonthData.category_expenses m)) st.

Definition clear_all_alerts (db : Db) : string * Db :=
  let months := to_list 1000 (budget_months db) in
  let '(config, db) := get_family_config db in
  let '(log, dismissed_count) :=
    fold_left clear_month months (dismissed_alerts db, 0%nat) in
  (pretty dismissed_count +:+ " alertas descartadas",
   {| family_config := family_config db;
      budget_months := budget_months db;
      dismissed_alerts := log |}).

(** ** Annual summary *)

(** [d[label] = d.get(label, 0) + amount] *)
Definition add_to (label : string) (amount : Q) (d : gmap string Q)
  : gmap string Q :=
  <[label := (default 0%Q (d !! label) + amount)%Q]> d.

(** The variables [get_annual_summary] updates in its loop. *)
Record SummaryState : Type := mkSummaryState {
  st_total_income : Q;
  st_total_expenses : Q;
  st_expense_by_category : gmap string Q;
  st_monthly_summaries : list MonthlySummary.t;
  st_member_contributions : gmap string Q
}.

(** The body of [for cat_id, expenses in m.get("category_expenses", {}).items()];
    the state is [month_category] and [expense_by_category]. *)
Definition summarize_category (config : FamilyConfig.t)
    (st : Q * gmap string Q) (item : string * list ExpenseItem.t)
  : Q * gmap string Q :=
  let '(month_category, expense_by_category) := st in
  let '(cat_id, expenses) := item in
  let cat_total := py_sum (map exp_actual expenses) in
  let month_category := (month_category + cat_total)%Q in
  let cat_name := category_name config cat_id in
  (month_category, add_to cat_name cat_total expense_by_category).

(** The body of [for member_id, amount in m.get("income", {}).items()]. *)
Definition credit_member (config : FamilyConfig.t)
    (member_contributions : gmap string Q) (item : string * Q)
  : gmap string Q :=
  let '(member_id, amount) := item in
  match find_member config member_id with
  | Some member => add_to (FamilyMember.name member) amount member_contributions
  | None => member_contributions
  end.

(** The body of the loops over [fixed_expenses] and [variable_expenses]
    that label each item by [exp.get("name", "Otros")]. *)
Definition add_item (expense_by_category : gmap string Q) (exp : ExpenseItem.t)
  : gmap string Q :=
  let name := default "Otros" (ExpenseItem.name exp) in
  add_to name (exp_actual exp) expense_by_category.

(** The body of [for m in months] in [get_annual_summary]. *)
Definition summarize_month (config : FamilyConfig.t) (st : SummaryState)
    (m : MonthData.t) : SummaryState :=
  let month_income := py_sum (map snd (default [] (MonthData.income m))) in
  let month_fixed :=
    py_sum (map exp_actual (default [] (MonthData.fixed_expenses m))) in
  let month_variable :=
    py_sum (map exp_actual (default [] (MonthData.variable_expenses m))) in
  let '(month_category, expense_by_category) :=
    fold_left (summarize_category config)
      (default [] (MonthData.category_expenses m))
      (0%Q, st_expense_by_category st) in
  let month_expenses := (month_fixed + month_variable + month_category)%Q in
  let total_income := (st_total_income st + month_income)%Q in
  let total_expenses := (st_total_expenses st + month_expenses)%Q in
  let member_contributions :=
    fold_left (credit_member config) (default [] (MonthData.income m))
      (st_member_contributions st) in
  let expense_by_category :=
    fold_left add_item (default [] (MonthData.fixed_expenses m))
      expense_by_category in
  let expense_by_category :=
    fold_left add_item (default [] (MonthData.variable_expenses m))
      expense_by_category in
  {| st_total_income := total_income;
     st_total_expenses := total_expenses;
     st_expense_by_category := expense_by_category;
     st_monthly_summaries :=
       st_monthly_summaries st ++
       [ {| MonthlySummary.month := MonthData.month m;
            MonthlySummary.month_name := MonthData.month_name m;
            MonthlySummary.income := month_income;
            MonthlySummary.expenses := month_expenses;
            MonthlySummary.savings := (month_income - month_expenses)%Q;
            MonthlySummary.fixed_expenses := month_fixed;
            MonthlySummary.variable_expenses := month_variable;
            MonthlySummary.category_expenses := month_category;
            MonthlySummary.bank_balances :=
              default [] (MonthData.bank_balances m) |} ];
     st_member_contributions := member_contributions |}.

(** The state before the loop; [member_contributions] starts as
    [{m["name"]: 0 for m in config.get("members", [])}]. *)
Definition initial_summary_state (config : FamilyConfig.t) : SummaryState :=
  {| st_total_income := 0%Q;
     st_total_expenses := 0%Q;
     st_expense_by_category := ∅;
     st_monthly_summaries := [];
     st_member_contributions :=
       fold_left (fun d mem => <[FamilyMember.name mem := 0%Q]> d)
         (default [] (FamilyConfig.members config)) ∅ |}.

(** [len(months)] as a number. *)
Definition len (months : list MonthData.t) : Q := inject_Z (Z.of_nat (length months)).

Definition get_annual_summary (year : Z) (db : Db) : result AnnualSummary.t * Db :=
  let months := find_year year db in
  let '(config, db) := get_family_config db in
  (match months with
   | [] => Raise (HTTPException 404 "No data for this year")
   | _ :: _ =>
       let st := fold_left (summarize_month config) months
                   (initial_summary_state config) in
       let total_income := st_total_income st in
       let total_expenses := st_total_expenses st in
       avg_monthly_savings ←
         match months with
         | [] => Ok 0%Q
         | _ :: _ => py_div (total_income - total_expenses) (len months)
         end;
       let remaining_months := (12 - Z.of_nat (length months))%Z in
       let projected_annual_savings :=
         ((total_income - total_expenses)
          + avg_monthly_savings * inject_Z remaining_months)%Q in
       Ok {| AnnualSummary.year := year;
             AnnualSummary.total_income := total_income;
             AnnualSummary.total_expenses := total_expenses;
             AnnualSummary.total_savings := (total_income - total_expenses)%Q;
             AnnualSummary.monthly_data := st_monthly_summaries st;
             AnnualSummary.expense_by_category := st_expense_by_category st;
             AnnualSummary.member_contributions := st_member_contributions st;
             AnnualSummary.savings_projection :=
               {| SavingsProjection.current_savings :=
                    (total_income - total_expenses)%Q;
                  SavingsProjection.avg_monthly_savings := avg_monthly_savings;
                  SavingsProjection.projected_annual_savings :=
                    projected_annual_savings;
                  SavingsProjection.months_tracked := length months;
                  SavingsProjection.remaining_months := remaining_months |} |}
   end, db).

(** ** Annual spreadsheet export

    The workbook is modelled by the cells written to its sheet; the
    encoding of the workbook as a byte stream is outside the model. *)

Inductive cell_format : Type :=
| header_format
| money_format
| positive_format
| negative_format.

Inductive cell_value : Type :=
| CellStr (s : string)
| CellNum (q : Q).

Record Worksheet : Type := mkWorksheet {
  sheet_name : string;
  cells : list (nat * nat * (cell_value * option cell_format))
}.

(** [worksheet.write(row, col, value, format)] *)
Definition ws_write (row col : nat) (v : cell_value) (fmt : option cell_format)
    (ws : Worksheet) : Worksheet :=
  {| sheet_name := sheet_name ws; cells := (row, col, (v, fmt)) :: cells ws |}.


(** [enumerate(l)] *)
Definition enumerate {A : Type} (l : list A) : list (nat * A) := imap pair l.

(** The body of [for m in months] in [export_excel]; the state is [row]
    and the sheet. *)
Definition write_month_row (st : nat * Worksheet) (m : MonthData.t)
  : nat * Worksheet :=
  let '(row, summary_sheet) := st in
  let income := py_sum (map snd (default [] (MonthData.income m))) in
  let fixed := py_sum (map exp_actual (default [] (MonthData.fixed_expenses m))) in
  let variable :=
    py_sum (map exp_actual (default [] (MonthData.variable_expenses m))) in
  let category :=
    py_sum (map (fun exps => py_sum (map exp_actual exps))
              (map snd (default [] (MonthData.category_expenses m)))) in
  let total_exp := (fixed + variable + category)%Q in
  let savings := (income - total_exp)%Q in
  let summary_sheet :=
    ws_write row 0 (CellStr (default String.EmptyString (MonthData.month_name m)))
      None summary_sheet in
  let summary_sheet :=
    ws_write row 1 (CellNum income) (Some money_format) summary_sheet in
  let summary_sheet :=
    ws_write row 2 (CellNum total_exp) (Some money_format) summary_sheet in
  let summary_sheet :=
    ws_write row 3 (CellNum savings)
      (Some (if Qle_bool 0 savings then positive_format else negative_format))
      summary_sheet in
  (S row, summary_sheet).

Definition export_excel (year : Z) (db : Db) : result (list Worksheet) :=
  let months := find_year year db in
  match months with
  | [] => Raise (HTTPException 404 "No data for this year")
  | _ :: _ =>
      let summary_sheet := {| sheet_name := "Resumen Anual"; cells := [] |} in
      let summary_headers := ["Mes"; "Ingresos"; "Gastos"; "Ahorro"] in
      let summary_sheet :=
        fold_left
          (fun ws '(col, header) =>
             ws_write 0 col (CellStr header) (Some header_format) ws)
          (enumerate summary_headers) summary_sheet in
      let '(_, summary_sheet) :=
        fold_left write_month_row months (1%nat, summary_sheet) in
      Ok [summary_sheet]
  end.

End Handlers.

(** ** The alert scan as a list expression

    What the loops of [get_alerts] append, written without the
    accumulator: the alert of one item, the alerts of one list of items,
    of one month, and of all months in the order the loops meet them. *)

Definition item_alert (m : MonthData.t) (tag category : string)
    (exp : ExpenseItem.t) : Alert.t :=
  {| Alert.alert_key := make_alert_key m tag exp;
     Alert.month := alert_month_name m;
     Alert.year := MonthData.year m;
     Alert.month_num := MonthData.month m;
     Alert.category := category;
     Alert.item_name := ExpenseItem.name exp;
     Alert.budget := exp_budget exp;
     Alert.actual := exp_actual exp;
     Alert.overage := (exp_actual exp - exp_budget exp)%Q;
     Alert.percentage_over :=
       ((exp_actual exp - exp_budget exp) / exp_budget exp * 100)%Q |}.

Definition alerting (dismissed_keys : gset string) (m : MonthData.t)
    (tag : string) (exp : ExpenseItem.t) : bool :=
  over_budget exp && bool_decide (make_alert_key m tag exp ∉ dismissed_keys).

Definition item_alerts (dismissed_keys : gset string) (m : MonthData.t)
    (tag category : string) (exps : list ExpenseItem.t) : list Alert.t :=
  map (item_alert m tag category) (List.filter (alerting dismissed_keys m tag) exps).

Definition category_alerts (config : FamilyConfig.t) (dismissed_keys : gset string)
    (m : MonthData.t) (item : string * list ExpenseItem.t) : list Alert.t :=
  item_alerts dismissed_keys m (fst item) (category_name config (fst item)) (snd item).

Definition month_alerts (config : FamilyConfig.t) (dismissed_keys : gset string)
    (m : MonthData.t) : list Alert.t :=
  item_alerts dismissed_keys m "fixed" "Gastos Fijos"
    (default [] (MonthData.fixed_expenses m))
  ++ item_alerts dismissed_keys m "variable" "Gastos Variables"
       (default [] (MonthData.variable_expenses m))
  ++ flat_map (category_alerts config dismissed_keys m)
       (default [] (MonthData.category_expenses m)).

(** The order in which [get_alerts] meets the alerts: month by month,
    within a month the fixed list, the variable list, then the category
    lists, and within a list by position. *)
Definition encounter_order (config : FamilyConfig.t) (dismissed_keys : gset string)
    (months : list MonthData.t) : list Alert.t :=
  flat_map (month_alerts config dismissed_keys) months.

(** The inputs [get_alerts] works on: the months and the dismissal
    records it reads, the configuration, the set of dismissed keys. *)
Definition alert_months (db : Db) : list MonthData.t :=
  to_list 1000 (budget_months db).

Definition read_dismissed_keys (db : Db) : gset string :=
  list_to_set (map DismissedAlert.alert_key (to_list 1000 (dismissed_alerts db))).

Definition current_config (default_config : FamilyConfig.t) (db : Db)
  : FamilyConfig.t :=
  fst (get_family_config default_config db).

(** The sources [get_alerts] scans in a month, in scan order, each with
    the tag it puts in the alert key and the label it puts in
    [category]. *)
Definition month_sources (config : FamilyConfig.t) (m : MonthData.t)
  : list (string * string * list ExpenseItem.t) :=
  ("fixed", "Gastos Fijos", default [] (MonthData.fixed_expenses m))
  :: ("variable", "Gastos Variables", default [] (MonthData.variable_expenses m))
  :: map (fun item => (fst item, category_name config (fst item), snd item))
       (default [] (MonthData.category_expenses m)).

Definition source_alerts (dismissed_keys : gset string) (m : MonthData.t)
    (src : string * string * list ExpenseItem.t) : list Alert.t :=
  item_alerts dismissed_keys m (fst (fst src)) (snd (fst src)) (snd src).

(** The keys of the alerts the scan would raise with no dismissal
    applied, in scan order. *)
Definition would_be_keys (config : FamilyConfig.t) (months : list MonthData.t)
  : list string :=
  map Alert.alert_key (encounter_order config ∅ months).

(** What [clear_all_alerts] does with one would-be key: the lookup in the
    log, and the insertion and count when the key is not there. *)
Definition dismiss_if_new (now : nat -> string)
    (st : list DismissedAlert.t * nat) (alert_key : string)
  : list DismissedAlert.t * nat :=
  match find_dismissed alert_key (fst st) with
  | Some _ => st
  | None => (insert_dismissed now alert_key (fst st), S (snd st))
  end.

(** ** The annual summary as list expressions *)

(** The month documents of a year held by the store. *)
Definition year_records (year : Z) (db : Db) : list MonthData.t :=
  List.filter (fun m => (MonthData.year m =? year)%Z) (budget_months db).

(** The invariant of the data model on the records of one year: one
    record per month, months numbered 1 to 12. *)
Definition well_keyed (records : list MonthData.t) : Prop :=
  List.NoDup (map MonthData.month records) /\
  List.Forall (fun m => (1 <= MonthData.month m <= 12)%Z) records.

Definition cat_total (item : string * list ExpenseItem.t) : Q :=
  py_sum (map exp_actual (snd item)).

Definition month_income (m : MonthData.t) : Q :=
  py_sum (map snd (default [] (MonthData.income m))).

Definition month_fixed (m : MonthData.t) : Q :=
  py_sum (map exp_actual (default [] (MonthData.fixed_expenses m))).

Definition month_variable (m : MonthData.t) : Q :=
  py_sum (map exp_actual (default [] (MonthData.variable_expenses m))).

Definition month_category (m : MonthData.t) : Q :=
  py_sum (map cat_total (default [] (MonthData.category_expenses m))).

Definition month_expenses (m : MonthData.t) : Q :=
  (month_fixed m + month_variable m + month_category m)%Q.

(** The summary [get_annual_summary] appends for a month. *)
Definition month_summary (m : MonthData.t) : MonthlySummary.t :=
  {| MonthlySummary.month := MonthData.month m;
     MonthlySummary.month_name := MonthData.month_name m;
     MonthlySummary.income := month_income m;
     MonthlySummary.expenses := month_expenses m;
     MonthlySummary.savings := (month_income m - month_expenses m)%Q;
     MonthlySummary.fixed_expenses := month_fixed m;
     MonthlySummary.variable_expenses := month_variable m;
     MonthlySummary.category_expenses := month_category m;
     MonthlySummary.bank_balances := default [] (MonthData.bank_balances m) |}.

(** The additions a month makes to [expense_by_category], as pairs of
    label and amount in the order the code makes them: one per category
    id under the category's resolved name, one per fixed item and one
    per variable item under the item's name. *)
Definition item_contribution (exp : ExpenseItem.t) : string * Q :=
  (default "Otros" (ExpenseItem.name exp), exp_actual exp).

Definition label_contributions (config : FamilyConfig.t) (m : MonthData.t)
  : list (string * Q) :=
  map (fun item => (category_name config (fst item), cat_total item))
    (default [] (MonthData.category_expenses m))
  ++ map item_contribution (default [] (MonthData.fixed_expenses m))
  ++ map item_contribution (default [] (MonthData.variable_expenses m)).

Definition add_contribution (d : gmap string Q) (c : string * Q) : gmap string Q :=
  add_to (fst c) (snd c) d.

(** The amounts contributed under one label. *)
Definition amounts_for (label : string) (contributions : list (string * Q))
  : list Q :=
  map snd (List.filter (fun c => String.eqb (fst c) label) contributions).


(** ** Two readings of the specification *)

(** [a] occurs somewhere before [b] in [l]. *)
Definition precedes {A : Type} (a b : A) (l : list A) : Prop :=
  exists l1 l2 l3, l = l1 ++ a :: l2 ++ b :: l3.

(** The tie-break read with the source deciding first, as in "source
    order, then list order within a source, then month order": of two
    alerts with equal overage, one raised by a fixed item of any month
    comes before one raised by a variable item of any month. *)
Definition source_decides_ties (default_config : FamilyConfig.t) (db : Db) : Prop :=
  forall alerts m1 m2 e1 e2,
    fst (get_alerts default_config db) = Ok alerts ->
    In m1 (alert_months db) -> In m2 (alert_months db) ->
    In e1 (default [] (MonthData.fixed_expenses m1)) ->
    In e2 (default [] (MonthData.variable_expenses m2)) ->
    alerting (read_dismissed_keys db) m1 "fixed" e1 = true ->
    alerting (read_dismissed_keys db) m2 "variable" e2 = true ->
    (exp_actual e1 - exp_budget e1 == exp_actual e2 - exp_budget e2)%Q ->
    precedes (item_alert m1 "fixed" "Gastos Fijos" e1)
      (item_alert m2 "variable" "Gastos Variables" e2) alerts.



(** ** Sample documents *)

Definition sample_config : FamilyConfig.t :=
  {| FamilyConfig.members :=
       Some [ FamilyMember.mk "m1" "Nata" 52; FamilyMember.mk "m2" "Jon" 48 ];
     FamilyConfig.categories :=
       Some [ ExpenseCategory.mk "c1" "Casa" "home" "#3b82f6" ] |}.

Definition sample_clock (n : nat) : string := "2024-01-01T00:00:00+00:00".

Definition sample_item (name : string) (budget actual : Q) : ExpenseItem.t :=
  {| ExpenseItem.name := Some name;
     ExpenseItem.budget := Some budget;
     ExpenseItem.actual := Some actual;
     ExpenseItem.category_id := None |}.

Definition sample_month (month : Z) (month_name : string)
    (fixed variable : list ExpenseItem.t)
    (categories : list (string * list ExpenseItem.t)) : MonthData.t :=
  {| MonthData.year := 2024;
     MonthData.month := month;
     MonthData.month_name := Some month_name;
     MonthData.income := Some [("m1", 4500%Q); ("m2", 3500%Q)];
     MonthData.fixed_expenses := Some fixed;
     MonthData.variable_expenses := Some variable;
     MonthData.category_expenses := Some categories;
     MonthData.bank_balances := None |}.

Definition sample_db (months : list MonthData.t) (log : list DismissedAlert.t) : Db :=
  {| family_config := [sample_config];
     budget_months := months;
     dismissed_alerts := log |}.

(** One month whose three over-budget items have overages 50, 200, 10. *)
Definition three_overages_db : Db :=
  sample_db
    [ sample_month 1 "Enero"
        [ sample_item "Internet" 100 150;
          sample_item "Renta" 1000 1200;
          sample_item "Agua" 100 110 ] [] [] ]
    [].

(** Two months with one over-budget item each and the same overage: a
    variable item in the first month, a fixed item in the second. *)
Definition tie_january : MonthData.t :=
  sample_month 1 "Enero" [] [ sample_item "Cine" 100 150 ] [].

Definition tie_february : MonthData.t :=
  sample_month 2 "Febrero" [ sample_item "Renta" 1000 1050 ] [] [].

Definition tie_db : Db := sample_db [ tie_january; tie_february ] [].


(** A month with three over-budget items, one of them already dismissed. *)
Definition one_dismissed_db : Db :=
  sample_db
    [ sample_month 1 "Enero"
        [ sample_item "Renta" 1000 1200 ]
        [ sample_item "Cine" 100 150 ]
        [ ("c1", [ sample_item "Luz" 50 260 ]) ] ]
    [ {| DismissedAlert.alert_key := "2024-1-variable-Cine";
         DismissedAlert.dismissed_at := "2024-02-01T00:00:00+00:00" |} ].

(** A year with one month: the example of the specification, with a
    category that has no items and a fixed item named like a category. *)
Definition summary_db : Db :=
  sample_db
    [ {| MonthData.year := 2024;
         MonthData.month := 1;
         MonthData.month_name := Some "Enero";
         MonthData.income := Some [("m1", 4500%Q); ("m2", 3500%Q)];
         MonthData.fixed_expenses :=
           Some [ sample_item "Hipoteca" 1500 1500; sample_item "Casa" 100 80 ];
         MonthData.variable_expenses := Some [ sample_item "Cine" 100 150 ];
         MonthData.category_expenses :=
           Some [ ("c1", [ sample_item "Luz" 50 60 ]); ("c7", []) ];
         MonthData.bank_balances := None |} ]
    [].

(** Membership in a list given by its elements. *)
Ltac in_list := simpl; repeat (first [left; reflexivity | right]).

(** * The remaining handlers

    The configuration and month handlers that write the store.  A
    configuration document is modelled by the two fields the engine
    reads, a month document by the fields of [MonthData.t]; what a
    handler writes to other fields of a document ([bank_accounts],
    [savings], [id], the timestamps) has no counterpart in the model. *)

Module BankAccount.
Record t : Type := mk {
  id : string;
  name : string;
  type : string;
  color : string
}.
End BankAccount.

(** The pydantic [ExpenseItem] of a request body, after validation has
    filled the defaults. *)
Module ExpenseItemModel.
Record t : Type := mk {
  name : string;
  budget : Q;
  actual : Q;
  category_id : option string
}.
End ExpenseItemModel.

Module MonthDataCreate.
Record t : Type := mk {
  year : Z;
  month : Z;
  month_name : string;
  income : list (string * Q);
  fixed_expenses : list ExpenseItemModel.t;
  variable_expenses : list ExpenseItemModel.t;
  category_expenses : list (string * list ExpenseItemModel.t);
  savings : list (string * Q)
}.
End MonthDataCreate.

Module MonthDataUpdate.
Record t : Type := mk {
  income : option (list (string * Q));
  fixed_expenses : option (list ExpenseItemModel.t);
  variable_expenses : option (list ExpenseItemModel.t);
  category_expenses : option (list (string * list ExpenseItemModel.t));
  bank_balances : option (list (string * Q));
  savings : option (list (string * Q))
}.
End MonthDataUpdate.

(** [model_dump()] of an expense item and of a mapping of item lists. *)
Definition model_dump_item (e : ExpenseItemModel.t) : ExpenseItem.t :=
  {| ExpenseItem.name := Some (ExpenseItemModel.name e);
     ExpenseItem.budget := Some (ExpenseItemModel.budget e);
     ExpenseItem.actual := Some (ExpenseItemModel.actual e);
     ExpenseItem.category_id := ExpenseItemModel.category_id e |}.

Definition model_dump_categories
    (cats : list (string * list ExpenseItemModel.t))
  : list (string * list ExpenseItem.t) :=
  map (fun item => (fst item, map model_dump_item (snd item))) cats.

(** ** Writes to the store *)

Definition with_family_config (coll : list FamilyConfig.t) (db : Db) : Db :=
  {| family_config := coll;
     budget_months := budget_months db;
     dismissed_alerts := dismissed_alerts db |}.

Definition with_budget_months (coll : list MonthData.t) (db : Db) : Db :=
  {| family_config := family_config db;
     budget_months := coll;
     dismissed_alerts := dismissed_alerts db |}.

(** [update_one(filter, {"$set": ...})]: the first document that matches
    is changed. *)
Fixpoint update_one {A : Type} (matches : A -> bool) (set : A -> A) (coll : list A)
  : list A :=
  match coll with
  | [] => []
  | doc :: rest =>
      if matches doc then set doc :: rest
      else doc :: update_one matches set rest
  end.

(** [delete_one(filter)]: the first document that matches is removed. *)
Fixpoint delete_one {A : Type} (matches : A -> bool) (coll : list A) : list A :=
  match coll with
  | [] => []
  | doc :: rest => if matches doc then rest else doc :: delete_one matches rest
  end.

(** ** Configuration handlers *)

(** The [$set] of the configuration fields that are given. *)
Definition set_config_fields (members : option (list FamilyMember.t))
    (categories : option (list ExpenseCategory.t)) (config : FamilyConfig.t)
  : FamilyConfig.t :=
  {| FamilyConfig.members :=
       match members with
       | Some ms => Some ms
       | None => FamilyConfig.members config
       end;
     FamilyConfig.categories :=
       match categories with
       | Some cs => Some cs
       | None => FamilyConfig.categories config
       end |}.

(** [family_config.update_one({}, {"$set": ...}, upsert=True)] *)
Definition upsert_config (members : option (list FamilyMember.t))
    (categories : option (list ExpenseCategory.t)) (coll : list FamilyConfig.t)
  : list FamilyConfig.t :=
  match coll with
  | [] => [ {| FamilyConfig.members := members;
               FamilyConfig.categories := categories |} ]
  | _ :: _ => update_one (fun _ => true) (set_config_fields members categories) coll
  end.

(** [abs(x)] on numbers. *)
Definition py_abs (x : Q) : Q := if Qle_bool 0 x then x else (- x)%Q.

(** [sum(m.get("percentage", 0) for m in members)] *)
Definition total_percentage (members : list FamilyMember.t) : Q :=
  py_sum (map FamilyMember.percentage members).

(** [update_family_config]; [str_number] is how an f-string renders a
    number. *)
Definition update_family_config (default_config : FamilyConfig.t)
    (str_number : Q -> string)
    (members : option (list FamilyMember.t))
    (categories : option (list ExpenseCategory.t))
    (bank_accounts : option (list BankAccount.t)) (db : Db)
  : result FamilyConfig.t * Db :=
  match members with
  | Some ms =>
      let total := total_percentage ms in
      if Qgtb (py_abs (total - 100)) (1 # 10) then
        (Raise (HTTPException 400
                  ("Los porcentajes deben sumar 100% (actual: "
                   +:+ str_number total +:+ "%)")), db)
      else
        let db := with_family_config
                    (upsert_config members categories (family_config db)) db in
        let '(config, db) := get_family_config default_config db in
        (Ok config, db)
  | None =>
      let db := with_family_config
                  (upsert_config members categories (family_config db)) db in
      let '(config, db) := get_family_config default_config db in
      (Ok config, db)
  end.

(** [add_family_member]; [new_id] is the fresh [uuid4]. *)
Definition add_family_member (default_config : FamilyConfig.t) (new_id : string)
    (name : string) (percentage : Q) (db : Db) : FamilyMember.t * Db :=
  let '(config, db) := get_family_config default_config db in
  let new_member :=
    {| FamilyMember.id := new_id;
       FamilyMember.name := name;
       FamilyMember.percentage := percentage |} in
  let members := default [] (FamilyConfig.members config) ++ [new_member] in
  (new_member,
   with_family_config
     (update_one (fun _ => true) (set_config_fields (Some members) None)
        (family_config db)) db).

Definition delete_family_member (default_config : FamilyConfig.t)
    (member_id : string) (db : Db) : string * Db :=
  let '(config, db) := get_family_config default_config db in
  let members :=
    List.filter (fun m => negb (String.eqb (FamilyMember.id m) member_id))
      (default [] (FamilyConfig.members config)) in
  ("Member deleted",
   with_family_config
     (update_one (fun _ => true) (set_config_fields (Some members) None)
        (family_config db)) db).

Definition add_category (default_config : FamilyConfig.t) (new_id : string)
    (name icon color : string) (db : Db) : ExpenseCategory.t * Db :=
  let '(config, db) := get_family_config default_config db in
  let new_category :=
    {| ExpenseCategory.id := new_id;
       ExpenseCategory.name := name;
       ExpenseCategory.icon := icon;
       ExpenseCategory.color := color |} in
  let categories := default [] (FamilyConfig.categories config) ++ [new_category] in
  (new_category,
   with_family_config
     (update_one (fun _ => true) (set_config_fields None (Some categories))
        (family_config db)) db).

Definition delete_category (default_config : FamilyConfig.t)
    (category_id : string) (db : Db) : string * Db :=
  let '(config, db) := get_family_config default_config db in
  let categories :=
    List.filter (fun c => negb (String.eqb (ExpenseCategory.id c) category_id))
      (default [] (FamilyConfig.categories config)) in
  ("Category deleted",
   with_family_config
     (update_one (fun _ => true) (set_config_fields None (Some categories))
        (family_config db)) db).

(** ** Month handlers *)

(** The filter [{"year": year, "month": month}]. *)
Definition month_matches (year month : Z) (m : MonthData.t) : bool :=
  (MonthData.year m =? year)%Z && (MonthData.month m =? month)%Z.

(** [budget_months.find_one({"year": year, "month": month})] *)
Definition find_month (year month : Z) (coll : list MonthData.t)
  : option MonthData.t :=
  List.find (month_matches year month) coll.

(** [find({}).sort([("year", 1), ("month", 1)]).to_list(1000)] *)
Definition year_month_before (a b : MonthData.t) : bool :=
  (MonthData.year a <? MonthData.year b)%Z
  || ((MonthData.year a =? MonthData.year b)%Z
      && (MonthData.month a <? MonthData.month b)%Z).

Definition get_all_months (db : Db) : list MonthData.t :=
  to_list 1000 (stable_sort year_month_before (budget_months db)).

Definition get_month (year month : Z) (db : Db) : result MonthData.t :=
  match find_month year month (budget_months db) with
  | Some month_data => Ok month_data
  | None => Raise (HTTPException 404 "Month not found")
  end.

(** The document [create_month] stores: the [MonthData] built from the
    dumped request, dumped in turn; [bank_balances] takes its default. *)
Definition new_month_document (data : MonthDataCreate.t) : MonthData.t :=
  {| MonthData.year := MonthDataCreate.year data;
     MonthData.month := MonthDataCreate.month data;
     MonthData.month_name := Some (MonthDataCreate.month_name data);
     MonthData.income := Some (MonthDataCreate.income data);
     MonthData.fixed_expenses :=
       Some (map model_dump_item (MonthDataCreate.fixed_expenses data));
     MonthData.variable_expenses :=
       Some (map model_dump_item (MonthDataCreate.variable_expenses data));
     MonthData.category_expenses :=
       Some (model_dump_categories (MonthDataCreate.category_expenses data));
     MonthData.bank_balances := Some [] |}.

Definition create_month (data : MonthDataCreate.t) (db : Db)
  : result MonthData.t * Db :=
  match
    find_month (MonthDataCreate.year data) (MonthDataCreate.month data)
      (budget_months db)
  with
  | Some _ => (Raise (HTTPException 400 "Month already exists"), db)
  | None =>
      let doc := new_month_document data in
      (Ok doc, with_budget_months (budget_months db ++ [doc]) db)
  end.

(** The [$set] of the fields of a [MonthDataUpdate] that are not [None]. *)
Definition set_month_fields (data : MonthDataUpdate.t) (m : MonthData.t)
  : MonthData.t :=
  {| MonthData.year := MonthData.year m;
     MonthData.month := MonthData.month m;
     MonthData.month_name := MonthData.month_name m;
     MonthData.income :=
       match MonthDataUpdate.income data with
       | Some v => Some v
       | None => MonthData.income m
       end;
     MonthData.fixed_expenses :=
       match MonthDataUpdate.fixed_expenses data with
       | Some v => Some (map model_dump_item v)
       | None => MonthData.fixed_expenses m
       end;
     MonthData.variable_expenses :=
       match MonthDataUpdate.variable_expenses data with
       | Some v => Some (map model_dump_item v)
       | None => MonthData.variable_expenses m
       end;
     MonthData.category_expenses :=
       match MonthDataUpdate.category_expenses data with
       | Some v => Some (model_dump_categories v)
       | None => MonthData.category_expenses m
       end;
     MonthData.bank_balances :=
       match MonthDataUpdate.bank_balances data with
       | Some v => Some v
       | None => MonthData.bank_balances m
       end |}.

(** [update_month] returns what [find_one] gives after the update. *)
Definition update_month (year month : Z) (data : MonthDataUpdate.t) (db : Db)
  : result (option MonthData.t) * Db :=
  let matched_count :=
    match find_month year month (budget_months db) with
    | Some _ => 1%nat
    | None => 0%nat
    end in
  let db :=
    with_budget_months
      (update_one (month_matches year month) (set_month_fields data)
         (budget_months db)) db in
  if Nat.eqb matched_count 0 then
    (Raise (HTTPException 404 "Month not found"), db)
  else (Ok (find_month year month (budget_months db)), db).

Definition delete_month (year month : Z) (db : Db) : result string * Db :=
  let deleted_count :=
    match find_month year month (budget_months db) with
    | Some _ => 1%nat
    | None => 0%nat
    end in
  let db :=
    with_budget_months
      (delete_one (month_matches year month) (budget_months db)) db in
  if Nat.eqb deleted_count 0 then
    (Raise (HTTPException 404 "Month not found"), db)
  else (Ok "Month deleted successfully", db).

(** ** Creating a year *)

Definition month_names : list string :=
  [ "Enero"; "Febrero"; "Marzo"; "Abril"; "Mayo"; "Junio"; "Julio"; "Agosto";
    "Septiembre"; "Octubre"; "Noviembre"; "Diciembre" ].

(** [d[k] = v] on a dictionary kept in insertion order. *)
Fixpoint dict_set {V : Type} (k : string) (v : V) (d : list (string * V))
  : list (string * V) :=
  match d with
  | [] => [(k, v)]
  | (k', v') :: d' =>
      if String.eqb k' k then (k', v) :: d' else (k', v') :: dict_set k v d'
  end.

(** The document [create_year] inserts for month [i]. *)
Definition empty_month (year : Z) (members : list FamilyMember.t)
    (categories : list ExpenseCategory.t) (i : nat) : MonthData.t :=
  let income :=
    fold_left (fun d member => dict_set (FamilyMember.id member) 0%Q d) members [] in
  let category_expenses :=
    fold_left (fun d cat => dict_set (ExpenseCategory.id cat) [] d) categories [] in
  {| MonthData.year := year;
     MonthData.month := Z.of_nat i;
     MonthData.month_name := Some (nth (i - 1) month_names String.EmptyString);
     MonthData.income := Some income;
     MonthData.fixed_expenses := Some [];
     MonthData.variable_expenses := Some [];
     MonthData.category_expenses := Some category_expenses;
     MonthData.bank_balances := None |}.

(** The body of [for i in range(1, 13)]; the state is the collection
    and [created_count]. *)
Definition create_year_month (year : Z) (members : list FamilyMember.t)
    (categories : list ExpenseCategory.t) (st : list MonthData.t * nat) (i : nat)
  : list MonthData.t * nat :=
  match find_month year (Z.of_nat i) (fst st) with
  | Some _ => st
  | None => (fst st ++ [empty_month year members categories i], S (snd st))
  end.

Definition create_year (default_config : FamilyConfig.t) (year : Z) (db : Db)
  : string * Db :=
  let '(config, db) := get_family_config default_config db in
  let members := default [] (FamilyConfig.members config) in
  let categories := default [] (FamilyConfig.categories config) in
  let '(months, created_count) :=
    fold_left (create_year_month year members categories) (seq 1 12)
      (budget_months db, 0%nat) in
  ("Año " +:+ pretty year +:+ " creado con " +:+ pretty created_count
   +:+ " meses nuevos",
   with_budget_months months db).

(** ** The key of a month document *)

Definition month_key (m : MonthData.t) : Z * Z :=
  (MonthData.year m, MonthData.month m).

(** No two documents of the collection have the same year and month. *)
Definition unique_keys (coll : list MonthData.t) : Prop :=
  List.NoDup (map month_key coll).

(** The months of [range(1, 13)] that have no document for the year. *)
Definition month_absent (year : Z) (coll : list MonthData.t) (i : nat) : bool :=
  match find_month year (Z.of_nat i) coll with
  | Some _ => false
  | None => true
  end.

Definition missing_months (year : Z) (coll : list MonthData.t) : list nat :=
  List.filter (month_absent year coll) (seq 1 12).

(** The order of [get_all_months]: by year, and by month within a year. *)
Definition year_month_le (a b : MonthData.t) : Prop :=
  (MonthData.year a < MonthData.year b)%Z \/
  (MonthData.year a = MonthData.year b /\
   (MonthData.month a <= MonthData.month b)%Z).

(** A request that creates January 2024 with one fixed item. *)
Definition sample_create : MonthDataCreate.t :=
  {| MonthDataCreate.year := 2024;
     MonthDataCreate.month := 1;
     MonthDataCreate.month_name := "Enero";
     MonthDataCreate.income := [("m1", 4500%Q); ("m2", 3500%Q)];
     MonthDataCreate.fixed_expenses :=
       [ {| ExpenseItemModel.name := "Hipoteca";
            ExpenseItemModel.budget := 1500%Q;
            ExpenseItemModel.actual := 1500%Q;
            ExpenseItemModel.category_id := None |} ];
     MonthDataCreate.variable_expenses := [];
     MonthDataCreate.category_expenses := [];
     MonthDataCreate.savings := [] |}.

(** A request that replaces the variable expenses only. *)
Definition sample_update : MonthDataUpdate.t :=
  {| MonthDataUpdate.income := None;
     MonthDataUpdate.fixed_expenses := None;
     MonthDataUpdate.variable_expenses :=
       Some [ {| ExpenseItemModel.name := "Cine";
                 ExpenseItemModel.budget := 100%Q;
                 ExpenseItemModel.actual := 150%Q;
                 ExpenseItemModel.category_id := None |} ];
     MonthDataUpdate.category_expenses := None;
     MonthDataUpdate.bank_balances := None;
     MonthDataUpdate.savings := None |}.

(** ** More views of the annual summary *)

(** The addition an income entry makes to [member_contributions]: the
    amount under the name of the member the id resolves to, nothing
    when no member has the id. *)
Definition member_credit (config : FamilyConfig.t) (item : string * Q)
  : option (string * Q) :=
  match find_member config (fst item) with
  | Some member => Some (FamilyMember.name member, snd item)
  | None => None
  end.

Definition member_credits (config : FamilyConfig.t) (months : list MonthData.t)
  : list (string * Q) :=
  omap (member_credit config)
    (flat_map (fun m => default [] (MonthData.income m)) months).

(** ** The annual summary of a year with more than twelve records *)

(** The summary read as covering every record the store holds for the
    year: as many monthly summaries as the year has records. *)
Definition one_summary_per_record (default_config : FamilyConfig.t) (year : Z)
    (db : Db) : Prop :=
  forall s,
    fst (get_annual_summary default_config year db) = Ok s ->
    length (AnnualSummary.monthly_data s) = length (year_records year db).

(** A request that creates month [i] of 2024 with an income of 100. *)
Definition monthly_request (i : nat) : MonthDataCreate.t :=
  {| MonthDataCreate.year := 2024;
     MonthDataCreate.month := Z.of_nat i;
     MonthDataCreate.month_name := nth (i - 1) month_names "Extra";
     MonthDataCreate.income := [("m1", 100%Q)];
     MonthDataCreate.fixed_expenses := [];
     MonthDataCreate.variable_expenses := [];
     MonthDataCreate.category_expenses := [];
     MonthDataCreate.savings := [] |}.

(** The store after [create_month] has been called for months 1 to 13
    of 2024; [create_month] puts no bound on the month number. *)
Definition thirteen_months_db : Db :=
  fold_left (fun db i => snd (create_month (monthly_request i) db)) (seq 1 13)
    (sample_db [] []).

(** A year with two months, stored February first, each with fixed
    items, variable items and two category lists. *)
Definition two_months_db : Db :=
  sample_db
    [ sample_month 2 "Febrero"
        [ sample_item "Hipoteca" 1500 1500 ]
        [ sample_item "Cine" 100 150; sample_item "Cena" 80 95 ]
        [ ("c1", [ sample_item "Luz" 50 60; sample_item "Agua" 30 25 ]);
          ("c2", [ sample_item "Bus" 40 45 ]) ];
      sample_month 1 "Enero"
        [ sample_item "Hipoteca" 1500 1500; sample_item "Seguro" 90 90 ]
        [ sample_item "Cine" 100 70 ]
        [ ("c1", [ sample_item "Luz" 50 55 ]);
          ("c2", [ sample_item "Bus" 40 40; sample_item "Taxi" 20 35 ]) ] ]
    [].

(** * Properties *)

(** ** Numbers *)

Lemma Qgtb_lt (x y : Q) : Qgtb x y = true <-> (y < x)%Q.
Proof.
  unfold Qgtb. rewrite negb_true_iff. split.
  - intros H. apply Qnot_le_lt. intros Hle.
    apply Qle_bool_iff in Hle. congruence.
  - intros H. destruct (Qle_bool x y) eqn:E; [|reflexivity].
    apply Qle_bool_iff in E. exfalso. exact (Qlt_not_le _ _ H E).
Qed.

Lemma Qgtb_le (x y : Q) : Qgtb x y = false <-> (x <= y)%Q.
Proof.
  unfold Qgtb. rewrite negb_false_iff. apply Qle_bool_iff.
Qed.

(** ** The stable sort *)

Section StableSortFacts.
Context {A : Type} (before : A -> A -> bool).
Hypothesis before_asym : forall a b, before a b = true -> before b a = false.
Hypothesis before_trans :
  forall a b c, before b a = false -> before c b = false -> before c a = false.

Lemma insert_sorted_perm (x : A) (l : list A) :
  Permutation (insert_sorted before x l) (x :: l).
Proof.
  induction l as [|y l IH]; simpl; [reflexivity|].
  destruct (before y x); [|reflexivity].
  rewrite IH. apply perm_swap.
Qed.

Lemma stable_sort_perm (l : list A) : Permutation (stable_sort before l) l.
Proof.
  induction l as [|x l IH]; simpl; [reflexivity|].
  rewrite insert_sorted_perm. now constructor.
Qed.

Lemma stable_sort_length (l : list A) : length (stable_sort before l) = length l.
Proof. apply Permutation_length, stable_sort_perm. Qed.

Lemma stable_sort_In (x : A) (l : list A) : In x (stable_sort before l) <-> In x l.
Proof.
  split; apply Permutation_in; [|symmetry]; apply stable_sort_perm.
Qed.


(** No element of the output is strictly ahead of an element before it. *)
Lemma insert_sorted_sorted (x : A) (l : list A) :
  StronglySorted (fun a b => before b a = false) l ->
  StronglySorted (fun a b => before b a = false) (insert_sorted before x l).
Proof.
  induction 1 as [|y l Hs IH Hy]; simpl.
  - repeat constructor.
  - destruct (before y x) eqn:E.
    + constructor; [exact IH|].
      apply List.Forall_forall. intros z Hz.
      apply (Permutation_in _ (insert_sorted_perm x l)) in Hz.
      destruct Hz as [<-|Hz]; [now apply before_asym|].
      rewrite List.Forall_forall in Hy. now apply Hy.
    + constructor; [now constructor|].
      constructor; [exact E|].
      apply List.Forall_forall. intros z Hz.
      rewrite List.Forall_forall in Hy. eapply before_trans; [exact E|now apply Hy].
Qed.

Lemma stable_sort_sorted (l : list A) :
  StronglySorted (fun a b => before b a = false) (stable_sort before l).
Proof.
  induction l as [|x l IH]; simpl; [constructor|].
  now apply insert_sorted_sorted.
Qed.

(** Stability: the elements of a class none of whose members is
    strictly ahead of another keep their input order. *)
Lemma insert_sorted_filter_class (p : A -> bool) (x : A) (l : list A) :
  (forall a b, p a = true -> p b = true -> before a b = false) ->
  List.filter p (insert_sorted before x l) = List.filter p (x :: l).
Proof.
  intros Hp. induction l as [|y l IH]; simpl; [reflexivity|].
  destruct (before y x) eqn:E; [|reflexivity].
  simpl. rewrite IH. simpl.
  destruct (p y) eqn:Ey, (p x) eqn:Ex; try reflexivity.
  rewrite (Hp y x Ey Ex) in E. discriminate.
Qed.

Lemma stable_sort_filter_class (p : A -> bool) (l : list A) :
  (forall a b, p a = true -> p b = true -> before a b = false) ->
  List.filter p (stable_sort before l) = List.filter p l.
Proof.
  intros Hp. induction l as [|x l IH]; simpl; [reflexivity|].
  rewrite insert_sorted_filter_class by exact Hp. simpl. now rewrite IH.
Qed.



End StableSortFacts.

(** ** The alert scan *)

Lemma over_budget_spec (exp : ExpenseItem.t) :
  over_budget exp = true <->
  (exp_budget exp < exp_actual exp)%Q /\ (0 < exp_budget exp)%Q.
Proof.
  unfold over_budget. rewrite andb_true_iff, !Qgtb_lt. reflexivity.
Qed.

Lemma over_budget_divisor (exp : ExpenseItem.t) :
  over_budget exp = true ->
  default 1%Q (ExpenseItem.budget exp) = exp_budget exp /\
  Qeq_bool (exp_budget exp) 0 = false.
Proof.
  intros H. apply over_budget_spec in H as [_ H]. split.
  - unfold exp_budget in *. destruct (ExpenseItem.budget exp); [reflexivity|].
    simpl in H. exfalso. exact (Qlt_irrefl _ H).
  - destruct (Qeq_bool (exp_budget exp) 0) eqn:E; [|reflexivity].
    apply Qeq_bool_iff in E. rewrite E in H. exfalso. exact (Qlt_irrefl _ H).
Qed.

Lemma make_alert_ok (m : MonthData.t) (tag category : string) (exp : ExpenseItem.t) :
  over_budget exp = true ->
  make_alert m tag category exp = Ok (item_alert m tag category exp).
Proof.
  intros H. destruct (over_budget_divisor exp H) as [Hd Hz].
  unfold make_alert, py_div. rewrite Hd, Hz. reflexivity.
Qed.

Lemma foldM_scan_item (dk : gset string) (m : MonthData.t) (tag category : string)
    (exps : list ExpenseItem.t) (alerts : list Alert.t) :
  foldM (scan_item dk m tag category) exps alerts =
  Ok (alerts ++ item_alerts dk m tag category exps).
Proof.
  revert alerts. induction exps as [|exp exps IH]; intros alerts; simpl.
  - unfold item_alerts. simpl. now rewrite app_nil_r.
  - unfold scan_item at 1. unfold item_alerts, alerting. simpl.
    destruct (over_budget exp) eqn:E; simpl.
    + destruct (bool_decide _); simpl.
      * rewrite make_alert_ok by exact E. simpl. rewrite IH.
        unfold item_alerts, alerting. now rewrite <- app_assoc.
      * apply IH.
    + apply IH.
Qed.

Lemma foldM_scan_categories (config : FamilyConfig.t) (dk : gset string)
    (m : MonthData.t) (cats : list (string * list ExpenseItem.t))
    (alerts : list Alert.t) :
  foldM
    (fun alerts '(cat_id, expenses) =>
       let cat_name := category_name config cat_id in
       foldM (scan_item dk m cat_id cat_name) expenses alerts)
    cats alerts =
  Ok (alerts ++ flat_map (category_alerts config dk m) cats).
Proof.
  revert alerts. induction cats as [|[cat_id expenses] cats IH]; intros alerts; simpl.
  - now rewrite app_nil_r.
  - rewrite foldM_scan_item, IH. unfold category_alerts at 2. simpl.
    now rewrite <- app_assoc.
Qed.

Lemma scan_month_ok (config : FamilyConfig.t) (dk : gset string)
    (alerts : list Alert.t) (m : MonthData.t) :
  scan_month config dk alerts m = Ok (alerts ++ month_alerts config dk m).
Proof.
  unfold scan_month, month_alerts.
  rewrite foldM_scan_item. simpl. rewrite foldM_scan_item. simpl.
  rewrite foldM_scan_categories. now rewrite <- !app_assoc.
Qed.

Lemma foldM_scan_month (config : FamilyConfig.t) (dk : gset string)
    (months : list MonthData.t) (alerts : list Alert.t) :
  foldM (scan_month config dk) months alerts =
  Ok (alerts ++ encounter_order config dk months).
Proof.
  revert alerts. induction months as [|m months IH]; intros alerts; simpl.
  - now rewrite app_nil_r.
  - rewrite scan_month_ok, IH. now rewrite <- app_assoc.
Qed.

Lemma get_family_config_months (default_config : FamilyConfig.t) (db : Db) :
  budget_months (snd (get_family_config default_config db)) = budget_months db.
Proof. unfold get_family_config. now destruct (family_config db). Qed.

Lemma get_family_config_dismissed (default_config : FamilyConfig.t) (db : Db) :
  dismissed_alerts (snd (get_family_config default_config db)) = dismissed_alerts db.
Proof. unfold get_family_config. now destruct (family_config db). Qed.

(** [get_alerts] never raises: it returns the alerts in encounter order,
    sorted. *)
Lemma get_alerts_ok (default_config : FamilyConfig.t) (db : Db) :
  fst (get_alerts default_config db) =
  Ok (sorted_by_overage_desc
        (encounter_order (current_config default_config db)
           (read_dismissed_keys db) (alert_months db))).
Proof.
  unfold get_alerts, current_config, read_dismissed_keys, alert_months.
  pose proof (get_family_config_dismissed default_config db) as Hd.
  destruct (get_family_config default_config db) as [config db'].
  simpl in *. rewrite Hd, foldM_scan_month. reflexivity.
Qed.

Lemma overage_before_asym (a b : Alert.t) :
  overage_before a b = true -> overage_before b a = false.
Proof.
  unfold overage_before. rewrite Qgtb_lt, Qgtb_le. apply Qlt_le_weak.
Qed.

Lemma overage_before_trans (a b c : Alert.t) :
  overage_before b a = false -> overage_before c b = false ->
  overage_before c a = false.
Proof.
  unfold overage_before. rewrite !Qgtb_le. intros H1 H2.
  eapply Qle_trans; eassumption.
Qed.

Lemma flat_map_map {A B C : Type} (f : B -> list C) (g : A -> B) (l : list A) :
  flat_map f (map g l) = flat_map (fun x => f (g x)) l.
Proof. induction l as [|x l IH]; simpl; [reflexivity|]. now rewrite IH. Qed.

Lemma month_alerts_sources (config : FamilyConfig.t) (dk : gset string)
    (m : MonthData.t) :
  month_alerts config dk m = flat_map (source_alerts dk m) (month_sources config m).
Proof.
  unfold month_alerts, month_sources. simpl. rewrite flat_map_map.
  reflexivity.
Qed.

(** An alert is in the encounter list exactly when some scanned item
    raised it. *)
Lemma in_encounter_order (config : FamilyConfig.t) (dk : gset string)
    (months : list MonthData.t) (a : Alert.t) :
  In a (encounter_order config dk months) <->
  exists m src exp,
    In m months /\ In src (month_sources config m) /\ In exp (snd src) /\
    alerting dk m (fst (fst src)) exp = true /\
    a = item_alert m (fst (fst src)) (snd (fst src)) exp.
Proof.
  unfold encounter_order. rewrite in_flat_map. split.
  - intros (m & Hm & Ha). rewrite month_alerts_sources in Ha.
    apply in_flat_map in Ha as (src & Hsrc & Ha).
    unfold source_alerts, item_alerts in Ha.
    apply in_map_iff in Ha as (exp & <- & Hexp).
    apply filter_In in Hexp as [Hexp Hal].
    exists m, src, exp. tauto.
  - intros (m & src & exp & Hm & Hsrc & Hexp & Hal & ->).
    exists m. split; [exact Hm|]. rewrite month_alerts_sources.
    apply in_flat_map. exists src. split; [exact Hsrc|].
    unfold source_alerts, item_alerts. apply in_map, filter_In. tauto.
Qed.

Lemma StronglySorted_impl {A : Type} (R S : A -> A -> Prop) (l : list A) :
  (forall a b, R a b -> S a b) -> StronglySorted R l -> StronglySorted S l.
Proof.
  intros HRS. induction 1 as [|x l Hs IH Hx]; constructor; [exact IH|].
  eapply List.Forall_impl; [|exact Hx]. intros b. apply HRS.
Qed.

Lemma alerting_spec (dk : gset string) (m : MonthData.t) (tag : string)
    (exp : ExpenseItem.t) :
  alerting dk m tag exp = true <->
  (exp_budget exp < exp_actual exp)%Q /\ (0 < exp_budget exp)%Q /\
  make_alert_key m tag exp ∉ dk.
Proof.
  unfold alerting. rewrite andb_true_iff, over_budget_spec, bool_decide_eq_true.
  tauto.
Qed.

(** Whether an item alerts can be read off the alert it would raise. *)
Lemma alerting_item_alert (dk : gset string) (m m' : MonthData.t)
    (tag tag' category category' : string) (exp exp' : ExpenseItem.t) :
  item_alert m tag category exp = item_alert m' tag' category' exp' ->
  alerting dk m tag exp = alerting dk m' tag' exp'.
Proof.
  intros H.
  assert (Hk : make_alert_key m tag exp = make_alert_key m' tag' exp')
    by exact (f_equal Alert.alert_key H).
  assert (Hb : exp_budget exp = exp_budget exp') by exact (f_equal Alert.budget H).
  assert (Ha : exp_actual exp = exp_actual exp') by exact (f_equal Alert.actual H).
  unfold alerting, over_budget. now rewrite Hk, Hb, Ha.
Qed.

(** ** Claims about the alert feed *)

(** C7.  [get_alerts] never raises, so no division by zero occurs; every
    alert it returns has a budget greater than 0, an [overage] equal to
    actual minus budget and a [percentage_over] equal to (actual minus
    budget) divided by budget times 100.  For an item with budget 1000
    and actual 1200 the alert has overage 200 and percentage_over 20. *)
Theorem C7_overage_and_percentage (default_config : FamilyConfig.t) (db : Db) :
  (exists alerts,
     fst (get_alerts default_config db) = Ok alerts /\
     Forall
       (fun a =>
          (0 < Alert.budget a)%Q /\
          Alert.overage a = (Alert.actual a - Alert.budget a)%Q /\
          Alert.percentage_over a
          = ((Alert.actual a - Alert.budget a) / Alert.budget a * 100)%Q)
       alerts) /\
  (forall m tag category name,
     exists a,
       make_alert m tag category
         {| ExpenseItem.name := name; ExpenseItem.budget := Some 1000%Q;
            ExpenseItem.actual := Some 1200%Q; ExpenseItem.category_id := None |}
       = Ok a /\
       Alert.overage a = 200%Q /\ (Alert.percentage_over a == 20)%Q).
Proof.
  split.
  - eexists. split; [apply get_alerts_ok|].
    apply List.Forall_forall. intros a Ha.
    apply stable_sort_In, in_encounter_order in Ha
      as (m & src & exp & _ & _ & _ & Hal & ->).
    apply alerting_spec in Hal as (_ & Hb & _). simpl. auto.
  - intros m tag category name. eexists. split; [reflexivity|].
    split; reflexivity.
Qed.

(** C4.  For every item of any of the three sources of a scanned month,
    the feed contains the item's alert if and only if the item's actual
    is greater than its budget, its budget is greater than 0 and its key
    is not among the dismissed keys; an item whose budget is 0 has no
    alert in the feed. *)
Theorem C4_alert_iff_over_budget (default_config : FamilyConfig.t) (db : Db)
    (m : MonthData.t) (src : string * string * list ExpenseItem.t)
    (exp : ExpenseItem.t) :
  In m (alert_months db) ->
  In src (month_sources (current_config default_config db) m) ->
  In exp (snd src) ->
  exists alerts,
    fst (get_alerts default_config db) = Ok alerts /\
    (In (item_alert m (fst (fst src)) (snd (fst src)) exp) alerts <->
     (exp_budget exp < exp_actual exp)%Q /\ (0 < exp_budget exp)%Q /\
     make_alert_key m (fst (fst src)) exp ∉ read_dismissed_keys db) /\
    ((exp_budget exp == 0)%Q ->
     ~ In (item_alert m (fst (fst src)) (snd (fst src)) exp) alerts).
Proof.
  intros Hm Hsrc Hexp. eexists. split; [apply get_alerts_ok|].
  assert (Hiff :
    In (item_alert m (fst (fst src)) (snd (fst src)) exp)
      (sorted_by_overage_desc
         (encounter_order (current_config default_config db)
            (read_dismissed_keys db) (alert_months db))) <->
    alerting (read_dismissed_keys db) m (fst (fst src)) exp = true).
  { unfold sorted_by_overage_desc. rewrite stable_sort_In, in_encounter_order.
    split.
    - intros (m' & src' & exp' & _ & _ & _ & Hal & Heq).
      now rewrite (alerting_item_alert _ _ _ _ _ _ _ _ _ Heq).
    - intros Hal. exists m, src, exp. tauto. }
  split.
  - rewrite Hiff. apply alerting_spec.
  - intros Hz Hin. apply Hiff, alerting_spec in Hin as (_ & Hb & _).
    rewrite Hz in Hb. exact (Qlt_irrefl _ Hb).
Qed.

(** C3 (as amended).  The feed is sorted by descending overage, and
    alerts with equal overage keep the order in which the scan met them:
    the order of the months as read from the store first, within a month
    the fixed list, then the variable list, then the category lists, and
    within a list the position.  With overages 50, 200, 10 in scan order
    the feed has them in the order 200, 50, 10. *)
Theorem C3_sorted_desc_stable (default_config : FamilyConfig.t) (db : Db) :
  (exists alerts,
     fst (get_alerts default_config db) = Ok alerts /\
     StronglySorted (fun a b => (Alert.overage b <= Alert.overage a)%Q) alerts /\
     Permutation alerts
       (encounter_order (current_config default_config db)
          (read_dismissed_keys db) (alert_months db)) /\
     forall v : Q,
       List.filter (fun a => Qeq_bool (Alert.overage a) v) alerts
       = List.filter (fun a => Qeq_bool (Alert.overage a) v)
           (encounter_order (current_config default_config db)
              (read_dismissed_keys db) (alert_months db))) /\
  (forall config dk m months,
     encounter_order config dk (m :: months)
     = item_alerts dk m "fixed" "Gastos Fijos"
         (default [] (MonthData.fixed_expenses m))
       ++ item_alerts dk m "variable" "Gastos Variables"
            (default [] (MonthData.variable_expenses m))
       ++ flat_map (category_alerts config dk m)
            (default [] (MonthData.category_expenses m))
       ++ encounter_order config dk months) /\
  (map Alert.overage
     (encounter_order (current_config default_config three_overages_db)
        (read_dismissed_keys three_overages_db) (alert_months three_overages_db))
   = [50; 200; 10]%Q /\
   exists alerts,
     fst (get_alerts default_config three_overages_db) = Ok alerts /\
     map Alert.overage alerts = [200; 50; 10]%Q).
Proof.
  split; [|split].
  - eexists. split; [apply get_alerts_ok|]. unfold sorted_by_overage_desc.
    split; [|split].
    + eapply StronglySorted_impl;
        [|apply stable_sort_sorted;
          [apply overage_before_asym|apply overage_before_trans]].
      intros a b. unfold overage_before. apply Qgtb_le.
    + apply stable_sort_perm.
    + intros v. apply stable_sort_filter_class.
      intros a b Ha Hb. apply Qeq_bool_iff in Ha, Hb.
      unfold overage_before. apply Qgtb_le. rewrite Ha, Hb. apply Qle_refl.
  - intros config dk m months. simpl. unfold month_alerts.
    now rewrite <- !app_assoc.
  - split; [reflexivity|]. eexists. split; [apply get_alerts_ok|]. reflexivity.
Qed.

Lemma precedes_two {A : Type} (a b : A) : a <> b -> ~ precedes a b [b; a].
Proof.
  intros Hab (l1 & l2 & l3 & H).
  destruct l1 as [|x l1]; simpl in H; [congruence|].
  destruct l1 as [|y l1]; simpl in H.
  - destruct l2; discriminate H.
  - destruct l1; discriminate H.
Qed.

(** C3, as stated, fails.  With a variable item over budget by 50 in the first month and a
    fixed item over budget by 50 in the second, the feed lists the
    variable item's alert first: the source does not decide ties. *)
Lemma C3_source_does_not_decide_ties :
  ~ source_decides_ties sample_config tie_db.
Proof.
  intros H.
  specialize (H _ tie_february tie_january
                (sample_item "Renta" 1000 1050) (sample_item "Cine" 100 150)
                (get_alerts_ok sample_config tie_db)).
  assert (Hout :
    sorted_by_overage_desc
      (encounter_order (current_config sample_config tie_db)
         (read_dismissed_keys tie_db) (alert_months tie_db))
    = [ item_alert tie_january "variable" "Gastos Variables"
          (sample_item "Cine" 100 150);
        item_alert tie_february "fixed" "Gastos Fijos"
          (sample_item "Renta" 1000 1050) ])
    by (vm_compute; reflexivity).
  rewrite Hout in H. eapply precedes_two; [|apply H].
  - intros E. apply (f_equal Alert.month_num) in E. discriminate E.
  - simpl. auto.
  - simpl. auto.
  - simpl. auto.
  - simpl. auto.
  - vm_compute. reflexivity.
  - vm_compute. reflexivity.
  - vm_compute. reflexivity.
Qed.

Lemma C4_alert_iff_over_budget_witness :
  let m :=
    sample_month 1 "Enero"
      [ sample_item "Internet" 100 150; sample_item "Renta" 1000 1200;
        sample_item "Agua" 100 110 ] [] [] in
  let src :=
    ("fixed", "Gastos Fijos",
     [ sample_item "Internet" 100 150; sample_item "Renta" 1000 1200;
       sample_item "Agua" 100 110 ]) in
  let exp := sample_item "Renta" 1000 1200 in
  exists alerts,
    fst (get_alerts sample_config three_overages_db) = Ok alerts /\
    (In (item_alert m "fixed" "Gastos Fijos" exp) alerts <->
     (exp_budget exp < exp_actual exp)%Q /\ (0 < exp_budget exp)%Q /\
     make_alert_key m "fixed" exp ∉ read_dismissed_keys three_overages_db) /\
    ((exp_budget exp == 0)%Q ->
     ~ In (item_alert m "fixed" "Gastos Fijos" exp) alerts).
Proof.
  intros m src exp.
  apply (C4_alert_iff_over_budget sample_config three_overages_db m src exp).
  - in_list.
  - in_list.
  - in_list.
Defined.

(** ** Dismissal *)

Lemma insert_dismissed_keys (now : nat -> string) (k : string)
    (log : list DismissedAlert.t) :
  map DismissedAlert.alert_key (insert_dismissed now k log) =
  map DismissedAlert.alert_key log ++ [k].
Proof. unfold insert_dismissed. now rewrite map_app. Qed.







Lemma read_dismissed_keys_dismiss (now : nat -> string) (k : string) (db : Db) :
  length (dismissed_alerts db) < 1000 ->
  read_dismissed_keys (snd (dismiss_alert now k db)) =
  read_dismissed_keys db ∪ {[k]}.
Proof.
  intros Hlen. unfold read_dismissed_keys, dismiss_alert, insert_dismissed, to_list.
  simpl. rewrite !take_ge by (rewrite ?length_app; simpl; lia).
  rewrite map_app, list_to_set_app_L. simpl. now rewrite union_empty_r_L.
Qed.

Lemma current_config_dismiss (default_config : FamilyConfig.t)
    (now : nat -> string) (k : string) (db : Db) :
  current_config default_config (snd (dismiss_alert now k db)) =
  current_config default_config db.
Proof.
  unfold current_config, get_family_config, dismiss_alert. simpl.
  now destruct (family_config db).
Qed.




(** ** Bulk dismissal *)

Lemma alerting_empty (m : MonthData.t) (tag : string) (exp : ExpenseItem.t) :
  alerting ∅ m tag exp = over_budget exp.
Proof.
  unfold alerting. rewrite bool_decide_eq_true_2 by apply not_elem_of_empty.
  apply andb_true_r.
Qed.

Lemma fold_clear_item (now : nat -> string) (m : MonthData.t) (tag category : string)
    (exps : list ExpenseItem.t) (st : list DismissedAlert.t * nat) :
  fold_left (clear_item now m tag) exps st =
  fold_left (dismiss_if_new now)
    (map Alert.alert_key (item_alerts ∅ m tag category exps)) st.
Proof.
  revert st. unfold item_alerts.
  induction exps as [|exp exps IH]; intros st; simpl; [reflexivity|].
  rewrite alerting_empty. unfold clear_item at 2.
  destruct (over_budget exp); simpl; apply IH.
Qed.

Lemma fold_clear_categories (now : nat -> string) (config : FamilyConfig.t)
    (m : MonthData.t) (cats : list (string * list ExpenseItem.t))
    (st : list DismissedAlert.t * nat) :
  fold_left
    (fun st '(cat_id, expenses) => fold_left (clear_item now m cat_id) expenses st)
    cats st =
  fold_left (dismiss_if_new now)
    (map Alert.alert_key (flat_map (category_alerts config ∅ m) cats)) st.
Proof.
  revert st. induction cats as [|[cat_id expenses] cats IH]; intros st; simpl;
    [reflexivity|].
  rewrite map_app, fold_left_app, IH. f_equal.
  apply fold_clear_item.
Qed.

Lemma clear_month_keys (now : nat -> string) (config : FamilyConfig.t)
    (st : list DismissedAlert.t * nat) (m : MonthData.t) :
  clear_month now st m =
  fold_left (dismiss_if_new now)
    (map Alert.alert_key (month_alerts config ∅ m)) st.
Proof.
  unfold clear_month, month_alerts.
  rewrite !map_app, !fold_left_app, (fold_clear_categories now config).
  now rewrite <- !(fold_clear_item now).
Qed.

Lemma fold_clear_month (now : nat -> string) (config : FamilyConfig.t)
    (months : list MonthData.t) (st : list DismissedAlert.t * nat) :
  fold_left (clear_month now) months st =
  fold_left (dismiss_if_new now) (would_be_keys config months) st.
Proof.
  revert st. unfold would_be_keys, encounter_order.
  induction months as [|m months IH]; intros st; simpl; [reflexivity|].
  now rewrite map_app, fold_left_app, IH, (clear_month_keys now config).
Qed.

Lemma find_dismissed_None (k : string) (log : list DismissedAlert.t) :
  find_dismissed k log = None <-> ~ In k (map DismissedAlert.alert_key log).
Proof.
  unfold find_dismissed. induction log as [|d log IH]; simpl; [tauto|].
  destruct (String.eqb_spec (DismissedAlert.alert_key d) k) as [->|Hne].
  - split; [discriminate|]. intros H. exfalso. apply H. now left.
  - rewrite IH. tauto.
Qed.

(** Running [dismiss_if_new] over a list of keys appends to the log,
    once each and in order of first occurrence, the keys that were not
    in it, and adds their number to the count. *)
Lemma fold_dismiss_if_new (now : nat -> string) (keys : list string)
    (log : list DismissedAlert.t) (n : nat) :
  exists new_keys,
    NoDup new_keys /\
    (forall k, In k new_keys <->
               In k keys /\ ~ In k (map DismissedAlert.alert_key log)) /\
    map DismissedAlert.alert_key (fst (fold_left (dismiss_if_new now) keys (log, n)))
    = map DismissedAlert.alert_key log ++ new_keys /\
    snd (fold_left (dismiss_if_new now) keys (log, n)) = n + length new_keys.
Proof.
  revert log n. induction keys as [|k keys IH]; intros log n; simpl.
  - exists []. repeat split; try constructor; simpl; try tauto.
    + now rewrite app_nil_r.
    + lia.
  - unfold dismiss_if_new at 2 4. simpl.
    destruct (find_dismissed k log) eqn:E.
    + assert (Hk : In k (map DismissedAlert.alert_key log)).
      { destruct (in_dec String.string_dec k (map DismissedAlert.alert_key log))
          as [Hin|Hout]; [exact Hin|].
        apply find_dismissed_None in Hout. congruence. }
      destruct (IH log n) as (new_keys & Hnd & Hin & Hlog & Hn).
      exists new_keys. split; [exact Hnd|]. split; [|split; assumption].
      intros k'. rewrite Hin. split; [tauto|].
      intros [[<-|H] Hout]; tauto.
    + apply find_dismissed_None in E.
      destruct (IH (insert_dismissed now k log) (S n))
        as (new_keys & Hnd & Hin & Hlog & Hn).
      rewrite insert_dismissed_keys in Hlog.
      setoid_rewrite insert_dismissed_keys in Hin.
      exists (k :: new_keys). split; [|split; [|split]].
      * constructor; [|exact Hnd]. intros H.
        apply list_elem_of_In, Hin in H as [_ H].
        apply H, in_app_iff. right. now left.
      * intros k'. simpl. rewrite Hin, in_app_iff. simpl.
        destruct (String.string_dec k k') as [<-|Hne]; tauto.
      * rewrite Hlog, <- app_assoc. reflexivity.
      * rewrite Hn. simpl. lia.
Qed.

(** C6.  [clear_all_alerts] goes through the keys of the alerts the scan
    would raise with no dismissal applied, appends to the dismissal log
    each of them that is not yet in the log, once, and reports the
    number of keys it appended.  With three over-budget items of which
    one key is already dismissed it reports 2. *)
Theorem C6_clear_all_counts_new_keys (default_config : FamilyConfig.t)
    (now : nat -> string) (db : Db) :
  (exists new_keys,
     NoDup new_keys /\
     (forall k,
        In k new_keys <->
        In k (would_be_keys (current_config default_config db) (alert_months db)) /\
        ~ In k (map DismissedAlert.alert_key (dismissed_alerts db))) /\
     map DismissedAlert.alert_key
       (dismissed_alerts (snd (clear_all_alerts default_config now db)))
     = map DismissedAlert.alert_key (dismissed_alerts db) ++ new_keys /\
     fst (clear_all_alerts default_config now db)
     = pretty (length new_keys) +:+ " alertas descartadas") /\
  (length (would_be_keys (current_config default_config one_dismissed_db)
             (alert_months one_dismissed_db)) = 3 /\
   map DismissedAlert.alert_key (dismissed_alerts one_dismissed_db)
   = ["2024-1-variable-Cine"] /\
   fst (clear_all_alerts default_config now one_dismissed_db)
   = "2 alertas descartadas").
Proof.
  split.
  - unfold clear_all_alerts, current_config, alert_months.
    pose proof (get_family_config_dismissed default_config db) as Hd.
    destruct (get_family_config default_config db) as [config db'].
    simpl in Hd |- *. rewrite Hd, (fold_clear_month now config).
    destruct (fold_dismiss_if_new now
                (would_be_keys config (to_list 1000 (budget_months db)))
                (dismissed_alerts db) 0)
      as (new_keys & Hnd & Hin & Hlog & Hn).
    destruct (fold_left _ _ _) as [log n]. simpl in *.
    exists new_keys. subst n. tauto.
  - repeat split; reflexivity.
Qed.

(** ** The annual summary *)

Lemma fold_left_Qplus_acc (l : list Q) (a : Q) :
  (fold_left Qplus l a == a + py_sum l)%Q.
Proof.
  unfold py_sum. revert a. induction l as [|x l IH]; intros a; simpl.
  - ring.
  - rewrite (IH (a + x)%Q), (IH (0 + x)%Q). ring.
Qed.

Lemma py_sum_cons (x : Q) (l : list Q) : (py_sum (x :: l) == x + py_sum l)%Q.
Proof. unfold py_sum at 1. simpl. rewrite fold_left_Qplus_acc. ring. Qed.

Lemma fold_summarize_category (config : FamilyConfig.t)
    (cats : list (string * list ExpenseItem.t)) (mc : Q) (ebc : gmap string Q) :
  fold_left (summarize_category config) cats (mc, ebc) =
  (fold_left Qplus (map cat_total cats) mc,
   fold_left add_contribution
     (map (fun item => (category_name config (fst item), cat_total item)) cats)
     ebc).
Proof.
  revert mc ebc. induction cats as [|[cat_id expenses] cats IH]; intros mc ebc;
    simpl; [reflexivity|].
  rewrite IH. reflexivity.
Qed.

Lemma fold_add_item (exps : list ExpenseItem.t) (ebc : gmap string Q) :
  fold_left add_item exps ebc =
  fold_left add_contribution (map item_contribution exps) ebc.
Proof.
  revert ebc. induction exps as [|exp exps IH]; intros ebc; simpl;
    [reflexivity|apply IH].
Qed.

(** One turn of the loop of [get_annual_summary]. *)
Lemma summarize_month_eq (config : FamilyConfig.t) (st : SummaryState)
    (m : MonthData.t) :
  summarize_month config st m =
  {| st_total_income := (st_total_income st + month_income m)%Q;
     st_total_expenses := (st_total_expenses st + month_expenses m)%Q;
     st_expense_by_category :=
       fold_left add_contribution (label_contributions config m)
         (st_expense_by_category st);
     st_monthly_summaries := st_monthly_summaries st ++ [month_summary m];
     st_member_contributions :=
       fold_left (credit_member config) (default [] (MonthData.income m))
         (st_member_contributions st) |}.
Proof.
  unfold summarize_month. rewrite fold_summarize_category.
  unfold label_contributions. rewrite !fold_left_app, !fold_add_item.
  reflexivity.
Qed.

Lemma fold_summarize_month (config : FamilyConfig.t) (months : list MonthData.t)
    (st : SummaryState) :
  let st' := fold_left (summarize_month config) months st in
  st_total_income st' = fold_left Qplus (map month_income months) (st_total_income st) /\
  st_total_expenses st'
  = fold_left Qplus (map month_expenses months) (st_total_expenses st) /\
  st_expense_by_category st'
  = fold_left add_contribution (flat_map (label_contributions config) months)
      (st_expense_by_category st) /\
  st_monthly_summaries st' = st_monthly_summaries st ++ map month_summary months.
Proof.
  revert st. induction months as [|m months IH]; intros st; simpl.
  - now rewrite app_nil_r.
  - destruct (IH (summarize_month config st m)) as (H1 & H2 & H3 & H4).
    rewrite H1, H2, H3, H4, summarize_month_eq. simpl.
    rewrite fold_left_app, <- app_assoc. auto.
Qed.

Lemma len_nonzero (m : MonthData.t) (months : list MonthData.t) :
  Qeq_bool (len (m :: months)) 0 = false.
Proof.
  destruct (Qeq_bool (len (m :: months)) 0) eqn:E; [|reflexivity].
  apply Qeq_bool_iff in E. unfold len, Qeq in E. simpl in E. lia.
Qed.

(** For a year that has months [get_annual_summary] returns a summary
    whose lists and totals are those of the loop. *)
Lemma get_annual_summary_ok (default_config : FamilyConfig.t) (year : Z) (db : Db) :
  find_year year db <> [] ->
  exists s,
    fst (get_annual_summary default_config year db) = Ok s /\
    AnnualSummary.monthly_data s = map month_summary (find_year year db) /\
    AnnualSummary.total_income s = py_sum (map month_income (find_year year db)) /\
    AnnualSummary.total_expenses s
    = py_sum (map month_expenses (find_year year db)) /\
    AnnualSummary.total_savings s
    = (AnnualSummary.total_income s - AnnualSummary.total_expenses s)%Q /\
    AnnualSummary.expense_by_category s
    = fold_left add_contribution
        (flat_map (label_contributions (current_config default_config db))
           (find_year year db)) ∅.
Proof.
  intros Hne. unfold get_annual_summary, current_config.
  pose proof (get_family_config_months default_config db) as Hm.
  destruct (get_family_config default_config db) as [config db']. simpl in *.
  replace (find_year year db') with (find_year year db)
    by (unfold find_year; now rewrite Hm).
  destruct (find_year year db) as [|m months] eqn:E; [congruence|].
  destruct (fold_summarize_month config (m :: months) (initial_summary_state config))
    as (H1 & H2 & H3 & H4).
  unfold py_div. rewrite len_nonzero. simpl.
  eexists. split; [reflexivity|]. simpl.
  simpl in H1, H2, H3, H4. rewrite H1, H2, H3, H4. auto.
Qed.

Lemma month_before_asym (a b : MonthData.t) :
  month_before a b = true -> month_before b a = false.
Proof. unfold month_before. lia. Qed.

Lemma month_before_trans (a b c : MonthData.t) :
  month_before b a = false -> month_before c b = false -> month_before c a = false.
Proof. unfold month_before. lia. Qed.

Lemma find_year_sorted (year : Z) (db : Db) :
  StronglySorted (fun a b => (MonthData.month a <= MonthData.month b)%Z)
    (find_year year db).
Proof.
  unfold find_year, to_list.
  assert (Hs : StronglySorted
                 (fun a b => (MonthData.month a <= MonthData.month b)%Z)
                 (stable_sort month_before (year_records year db))).
  { eapply StronglySorted_impl;
      [|apply stable_sort_sorted;
        [apply month_before_asym|apply month_before_trans]].
    intros a b. unfold month_before. lia. }
  fold (year_records year db). revert Hs.
  generalize (stable_sort month_before (year_records year db)). intros l.
  generalize 12%nat. intros n Hs. revert n.
  induction Hs as [|x l Hs IH Hx]; intros [|n]; simpl; try constructor.
  - apply IH.
  - apply List.Forall_forall. intros y Hy.
    rewrite List.Forall_forall in Hx. apply Hx.
    apply list_elem_of_In. eapply subseteq_take, list_elem_of_In, Hy.
Qed.

Lemma find_year_nil (year : Z) (db : Db) :
  find_year year db = [] <-> year_records year db = [].
Proof.
  unfold find_year, to_list. fold (year_records year db).
  pose proof (stable_sort_length month_before (year_records year db)) as Hlen.
  destruct (year_records year db) as [|m l]; simpl in *.
  - tauto.
  - destruct (insert_sorted month_before m (stable_sort month_before l));
      simpl in *; [lia|]. split; discriminate.
Qed.

(** The invariant of the data model bounds the records of a year by
    twelve, which is what the cursor of [find_year] holds. *)
Lemma well_keyed_length (records : list MonthData.t) :
  well_keyed records -> length records <= 12.
Proof.
  intros [Hnd Hrange].
  rewrite <- (length_map MonthData.month).
  change 12 with (length [1; 2; 3; 4; 5; 6; 7; 8; 9; 10; 11; 12]%Z).
  apply NoDup_incl_length; [exact Hnd|].
  intros z Hz. apply in_map_iff in Hz as (m & <- & Hm).
  rewrite List.Forall_forall in Hrange. specialize (Hrange m Hm).
  assert (Hcases :
    (MonthData.month m = 1 \/ MonthData.month m = 2 \/ MonthData.month m = 3 \/
     MonthData.month m = 4 \/ MonthData.month m = 5 \/ MonthData.month m = 6 \/
     MonthData.month m = 7 \/ MonthData.month m = 8 \/ MonthData.month m = 9 \/
     MonthData.month m = 10 \/ MonthData.month m = 11 \/
     MonthData.month m = 12)%Z) by lia.
  simpl. intuition.
Qed.

Lemma find_year_all (year : Z) (db : Db) :
  length (year_records year db) <= 12 ->
  find_year year db = stable_sort month_before (year_records year db).
Proof.
  intros Hlen. unfold find_year, to_list. fold (year_records year db).
  apply take_ge. now rewrite stable_sort_length.
Qed.

Lemma find_year_length_min (year : Z) (db : Db) :
  length (find_year year db) = Nat.min 12 (length (year_records year db)).
Proof.
  unfold find_year, to_list. fold (year_records year db).
  now rewrite length_take, stable_sort_length.
Qed.

(** C1.  For a year of which the store holds N month records, N not 0,
    [get_annual_summary] reads the first twelve of them in ascending
    order of month and returns one monthly summary per record read, in
    that order: min(N, 12) summaries, hence exactly N, one per record
    of the year, when N is at most 12.  Each summary has the month's
    income (the sum of the values of its income mapping), its expenses
    (the sum of the actuals of its fixed items, plus that of its
    variable items, plus the sum over its categories of each category's
    sum of actuals, added in this order) and its savings (income minus
    expenses); the total income and the total expenses are the sums of
    the monthly incomes and expenses in the order of the summaries, and
    the total savings is their difference. *)
Theorem C1_annual_summary_months_and_totals (default_config : FamilyConfig.t)
    (year : Z) (db : Db) :
  year_records year db <> [] ->
  exists s,
    fst (get_annual_summary default_config year db) = Ok s /\
    find_year year db
    = take 12 (stable_sort month_before (year_records year db)) /\
    length (AnnualSummary.monthly_data s)
    = Nat.min 12 (length (year_records year db)) /\
    StronglySorted Z.le (map MonthlySummary.month (AnnualSummary.monthly_data s)) /\
    Forall2
      (fun ms m =>
         MonthlySummary.month ms = MonthData.month m /\
         MonthlySummary.income ms
         = py_sum (map snd (default [] (MonthData.income m))) /\
         MonthlySummary.expenses ms
         = (py_sum (map exp_actual (default [] (MonthData.fixed_expenses m)))
            + py_sum (map exp_actual (default [] (MonthData.variable_expenses m)))
            + py_sum (map (fun item => py_sum (map exp_actual (snd item)))
                        (default [] (MonthData.category_expenses m))))%Q /\
         MonthlySummary.savings ms
         = (MonthlySummary.income ms - MonthlySummary.expenses ms)%Q)
      (AnnualSummary.monthly_data s) (find_year year db) /\
    AnnualSummary.total_income s
    = py_sum (map MonthlySummary.income (AnnualSummary.monthly_data s)) /\
    AnnualSummary.total_expenses s
    = py_sum (map MonthlySummary.expenses (AnnualSummary.monthly_data s)) /\
    AnnualSummary.total_savings s
    = (AnnualSummary.total_income s - AnnualSummary.total_expenses s)%Q /\
    (length (year_records year db) <= 12 ->
     length (AnnualSummary.monthly_data s) = length (year_records year db) /\
     Permutation (find_year year db) (year_records year db)).
Proof.
  intros Hrec.
  assert (Hne : find_year year db <> [])
    by (intros H; apply Hrec, find_year_nil, H).
  destruct (get_annual_summary_ok default_config year db Hne)
    as (s & Hs & Hmd & Hti & Hte & Hts & _).
  pose proof (find_year_sorted year db) as Hsorted.
  pose proof (find_year_length_min year db) as Hmin.
  exists s. split; [exact Hs|]. split; [reflexivity|].
  rewrite Hts, Hmd, Hti, Hte, length_map, !map_map. simpl.
  split; [exact Hmin|].
  split; [|split; [|split; [|split; [|split]]]]; try reflexivity.
  - revert Hsorted. generalize (find_year year db). intros l Hl.
    induction Hl as [|x l Hl IH Hx]; simpl; constructor; [exact IH|].
    apply List.Forall_map. exact Hx.
  - generalize (find_year year db). intros l.
    induction l as [|m l IH]; simpl; constructor; [|exact IH].
    simpl. repeat split; reflexivity.
  - intros Hle. split; [rewrite Hmin; lia|].
    rewrite (find_year_all year db Hle). apply stable_sort_perm.
Qed.

Lemma C1_annual_summary_months_and_totals_witness :
  year_records 2024 two_months_db <> [] /\
  exists s,
    fst (get_annual_summary sample_config 2024 two_months_db) = Ok s /\
    map MonthlySummary.month (AnnualSummary.monthly_data s) = [1; 2]%Z /\
    length (AnnualSummary.monthly_data s)
    = Nat.min 12 (length (year_records 2024 two_months_db)) /\
    AnnualSummary.total_expenses s
    = py_sum (map MonthlySummary.expenses (AnnualSummary.monthly_data s)) /\
    AnnualSummary.total_savings s
    = (AnnualSummary.total_income s - AnnualSummary.total_expenses s)%Q.
Proof.
  assert (Hrec : year_records 2024 two_months_db <> [])
    by (vm_compute; discriminate).
  split; [exact Hrec|].
  destruct (C1_annual_summary_months_and_totals sample_config 2024 two_months_db
              Hrec)
    as (s & Hs & _ & Hlen & _ & _ & _ & Hte & Hts & _).
  exists s. split; [exact Hs|]. split; [|auto].
  vm_compute in Hs. injection Hs as <-. reflexivity.
Defined.

(** C1 read with N the number of records the store holds for the year
    fails: [create_month] accepts any month number, and of the thirteen
    records of 2024 that thirteen calls create the summary covers
    twelve, so that its total income is short of one month. *)
Lemma C1_thirteenth_record_is_not_summarised :
  length (year_records 2024 thirteen_months_db) = 13 /\
  unique_keys (budget_months thirteen_months_db) /\
  (exists s,
     fst (get_annual_summary sample_config 2024 thirteen_months_db) = Ok s /\
     length (AnnualSummary.monthly_data s) = 12 /\
     (AnnualSummary.total_income s == 1200)%Q /\
     (py_sum (map month_income (year_records 2024 thirteen_months_db)) == 1300)%Q) /\
  ~ one_summary_per_record sample_config 2024 thirteen_months_db.
Proof.
  split; [reflexivity|]. split; [|split].
  - unfold unique_keys. apply NoDup_ListNoDup.
    apply (bool_decide_unpack _). vm_compute. reflexivity.
  - eexists. split; [vm_compute; reflexivity|].
    split; [reflexivity|]. split; reflexivity.
  - intros H.
    destruct (get_annual_summary_ok sample_config 2024 thirteen_months_db)
      as (s & Hs & Hmd & _); [vm_compute; discriminate|].
    specialize (H s Hs). rewrite Hmd, length_map in H.
    vm_compute in H. discriminate H.
Qed.

Lemma get_annual_summary_empty (default_config : FamilyConfig.t) (year : Z) (db : Db) :
  find_year year db = [] ->
  fst (get_annual_summary default_config year db)
  = Raise (HTTPException 404 "No data for this year").
Proof.
  intros E. unfold get_annual_summary.
  destruct (get_family_config default_config db) as [config db'].
  now rewrite E.
Qed.

(** C8.  [get_annual_summary] raises the 404 "No data for this year"
    exactly when the store has no month record for the year, and
    otherwise returns a summary; [export_excel] raises and returns in
    the same cases.  A missing [budget] or [actual] reads as 0. *)
Theorem C8_no_data_iff_empty (default_config : FamilyConfig.t) (year : Z) (db : Db) :
  (fst (get_annual_summary default_config year db)
   = Raise (HTTPException 404 "No data for this year")
   <-> year_records year db = []) /\
  (year_records year db <> [] ->
   exists s, fst (get_annual_summary default_config year db) = Ok s) /\
  (export_excel year db = Raise (HTTPException 404 "No data for this year")
   <-> year_records year db = []) /\
  (year_records year db <> [] -> exists wb, export_excel year db = Ok wb) /\
  (forall exp, ExpenseItem.budget exp = None -> exp_budget exp = 0%Q) /\
  (forall exp, ExpenseItem.actual exp = None -> exp_actual exp = 0%Q).
Proof.
  rewrite <- find_year_nil.
  split; [|split; [|split; [|split; [|split]]]].
  - split; [|apply get_annual_summary_empty].
    intros H. destruct (find_year year db) as [|m l] eqn:E; [reflexivity|].
    destruct (get_annual_summary_ok default_config year db) as (s & Hs & _);
      [rewrite E; discriminate|congruence].
  - intros Hne.
    destruct (get_annual_summary_ok default_config year db Hne) as (s & Hs & _).
    now exists s.
  - unfold export_excel. destruct (find_year year db) as [|m l].
    + tauto.
    + destruct (fold_left write_month_row _ _). split; discriminate.
  - unfold export_excel. destruct (find_year year db) as [|m l]; [tauto|].
    intros _. destruct (fold_left write_month_row _ _). eauto.
  - intros exp H. unfold exp_budget. now rewrite H.
  - intros exp H. unfold exp_actual. now rewrite H.
Qed.

(** ** Expenses by label *)

Lemma lookup_add_to (label l : string) (amount : Q) (d : gmap string Q) :
  add_to l amount d !! label =
  if String.eqb l label then Some (default 0%Q (d !! l) + amount)%Q else d !! label.
Proof.
  unfold add_to. destruct (String.eqb_spec l label) as [->|Hne].
  - apply lookup_insert_eq.
  - now apply lookup_insert_ne.
Qed.

(** The entry of a label after a run of additions: it exists when it
    existed before or some addition was made under the label, and it
    holds the amount it held plus the amounts added under the label. *)
Lemma fold_add_contribution (label : string) (cs : list (string * Q))
    (d : gmap string Q) :
  (is_Some (fold_left add_contribution cs d !! label) <->
   is_Some (d !! label) \/ exists amount, In (label, amount) cs) /\
  (default 0 (fold_left add_contribution cs d !! label) ==
   default 0 (d !! label) + py_sum (amounts_for label cs))%Q.
Proof.
  revert d. induction cs as [|[l amount] cs IH]; intros d; simpl.
  - split.
    + split; [tauto|]. intros [H|[amount []]]. exact H.
    + unfold amounts_for, py_sum. simpl. ring.
  - destruct (IH (add_contribution d (l, amount))) as [H1 H2].
    change (add_contribution d (l, amount)) with (add_to l amount d) in H1, H2.
    rewrite lookup_add_to in H1, H2.
    unfold amounts_for in *. simpl.
    destruct (String.eqb_spec l label) as [->|Hne].
    + split.
      * rewrite H1. split; [eauto|]. intros _. left. eauto.
      * rewrite H2. simpl. rewrite py_sum_cons. ring.
    + split.
      * rewrite H1. split.
        -- intros [H|[a H]]; [tauto|]. right. exists a. now right.
        -- intros [H|[a [H|H]]]; [tauto| |eauto]. congruence.
      * exact H2.
Qed.

Lemma category_name_spec (config : FamilyConfig.t) (cat_id : string) :
  (category_name config cat_id = "Otros" /\
   forall c, In c (default [] (FamilyConfig.categories config)) ->
             ExpenseCategory.id c <> cat_id) \/
  (exists c, In c (default [] (FamilyConfig.categories config)) /\
             ExpenseCategory.id c = cat_id /\
             category_name config cat_id = ExpenseCategory.name c).
Proof.
  unfold category_name.
  destruct (List.find _ _) as [c|] eqn:E.
  - right. apply find_some in E as [Hin Hid].
    apply String.eqb_eq in Hid. eauto.
  - left. split; [reflexivity|]. intros c Hin Hid.
    apply (find_none _ _ E) in Hin. apply String.eqb_neq in Hin. contradiction.
Qed.

(** C2.  The entries of [expense_by_category] come from three sources
    that write into one mapping: each category id of a month's
    [category_expenses] adds the total of the actuals of its items under
    the configured name of the category, or under "Otros" when the id is
    not configured; each fixed item and each variable item adds its
    actual under its own name.  The entry of a label holds the sum of
    all the amounts added under it, whichever the sources, so a fixed or
    variable item named like a category, or like another item, is
    summed into the same entry. *)
Theorem C2_expense_by_category_merges_labels (default_config : FamilyConfig.t)
    (year : Z) (db : Db) :
  find_year year db <> [] ->
  exists s,
    fst (get_annual_summary default_config year db) = Ok s /\
    (forall m,
       label_contributions (current_config default_config db) m
       = map (fun item =>
                (category_name (current_config default_config db) (fst item),
                 py_sum (map exp_actual (snd item))))
           (default [] (MonthData.category_expenses m))
         ++ map (fun exp => (default "Otros" (ExpenseItem.name exp), exp_actual exp))
              (default [] (MonthData.fixed_expenses m))
         ++ map (fun exp => (default "Otros" (ExpenseItem.name exp), exp_actual exp))
              (default [] (MonthData.variable_expenses m))) /\
    (forall cat_id,
       (category_name (current_config default_config db) cat_id = "Otros" /\
        forall c,
          In c (default [] (FamilyConfig.categories (current_config default_config db))) ->
          ExpenseCategory.id c <> cat_id) \/
       (exists c,
          In c (default [] (FamilyConfig.categories (current_config default_config db))) /\
          ExpenseCategory.id c = cat_id /\
          category_name (current_config default_config db) cat_id
          = ExpenseCategory.name c)) /\
    forall label,
      (is_Some (AnnualSummary.expense_by_category s !! label) <->
       exists amount,
         In (label, amount)
           (flat_map (label_contributions (current_config default_config db))
              (find_year year db))) /\
      (default 0 (AnnualSummary.expense_by_category s !! label) ==
       py_sum
         (amounts_for label
            (flat_map (label_contributions (current_config default_config db))
               (find_year year db))))%Q.
Proof.
  intros Hne.
  destruct (get_annual_summary_ok default_config year db Hne)
    as (s & Hs & _ & _ & _ & _ & Hebc).
  exists s. split; [exact Hs|]. split; [reflexivity|].
  split; [apply category_name_spec|].
  intros label. rewrite Hebc.
  destruct (fold_add_contribution label
              (flat_map (label_contributions (current_config default_config db))
                 (find_year year db)) ∅) as [H1 H2].
  split.
  - rewrite H1, lookup_empty. split; [|eauto].
    intros [H|H]; [destruct H; discriminate|exact H].
  - rewrite H2, lookup_empty. simpl. ring.
Qed.

Lemma C2_expense_by_category_merges_labels_witness :
  find_year 2024 summary_db <> [] /\
  exists s,
    fst (get_annual_summary sample_config 2024 summary_db) = Ok s /\
    (forall label,
       (is_Some (AnnualSummary.expense_by_category s !! label) <->
        exists amount,
          In (label, amount)
            (flat_map (label_contributions (current_config sample_config summary_db))
               (find_year 2024 summary_db))) /\
       (default 0 (AnnualSummary.expense_by_category s !! label) ==
        py_sum
          (amounts_for label
             (flat_map (label_contributions (current_config sample_config summary_db))
                (find_year 2024 summary_db))))%Q).
Proof.
  assert (Hne : find_year 2024 summary_db <> []) by (vm_compute; discriminate).
  split; [exact Hne|].
  destruct (C2_expense_by_category_merges_labels sample_config 2024 summary_db Hne)
    as (s & Hs & _ & _ & Hlabels).
  exists s. split; [exact Hs|exact Hlabels].
Defined.

(** C10.  Every category id that occurs in the [category_expenses] of a
    summarised month has an entry in [expense_by_category] under its
    resolved label, whatever its items; a category id with an empty list
    of items under a label nothing else uses gives an entry of value 0. *)
Theorem C10_entry_for_every_category_id (default_config : FamilyConfig.t)
    (year : Z) (db : Db) :
  (forall m item,
     In m (find_year year db) ->
     In item (default [] (MonthData.category_expenses m)) ->
     exists s,
       fst (get_annual_summary default_config year db) = Ok s /\
       is_Some
         (AnnualSummary.expense_by_category s
          !! category_name (current_config default_config db) (fst item))) /\
  (exists m s,
     In m (find_year 2024 summary_db) /\
     In ("c7", []) (default [] (MonthData.category_expenses m)) /\
     category_name (current_config default_config summary_db) "c7" = "Otros" /\
     fst (get_annual_summary default_config 2024 summary_db) = Ok s /\
     AnnualSummary.expense_by_category s !! "Otros" = Some 0%Q).
Proof.
  split.
  - intros m item Hm Hitem.
    assert (Hne : find_year year db <> []) by (intros E; rewrite E in Hm; exact Hm).
    destruct (get_annual_summary_ok default_config year db Hne)
      as (s & Hs & _ & _ & _ & _ & Hebc).
    exists s. split; [exact Hs|]. rewrite Hebc.
    apply fold_add_contribution. right.
    exists (cat_total item). apply in_flat_map. exists m. split; [exact Hm|].
    unfold label_contributions. apply in_app_iff. left.
    apply in_map_iff. exists item. tauto.
  - eexists. eexists. split; [left; reflexivity|].
    split; [right; left; reflexivity|]. split; [reflexivity|].
    split; vm_compute; reflexivity.
Qed.

Lemma C10_entry_for_every_category_id_witness :
  In (sample_month 1 "Enero" [] [] [ ("c1", []) ])
    (find_year 2024 (sample_db [ sample_month 1 "Enero" [] [] [ ("c1", []) ] ] [])) /\
  In ("c1", [])
    (default []
       (MonthData.category_expenses (sample_month 1 "Enero" [] [] [ ("c1", []) ]))) /\
  exists s,
    fst (get_annual_summary sample_config 2024
           (sample_db [ sample_month 1 "Enero" [] [] [ ("c1", []) ] ] []))
    = Ok s /\
    is_Some (AnnualSummary.expense_by_category s !! "Casa").
Proof.
  assert (Hm : In (sample_month 1 "Enero" [] [] [ ("c1", []) ])
                 (find_year 2024
                    (sample_db [ sample_month 1 "Enero" [] [] [ ("c1", []) ] ] [])))
    by (left; reflexivity).
  assert (Hitem : In ("c1", [])
                    (default []
                       (MonthData.category_expenses
                          (sample_month 1 "Enero" [] [] [ ("c1", []) ]))))
    by (left; reflexivity).
  split; [exact Hm|]. split; [exact Hitem|].
  exact (proj1 (C10_entry_for_every_category_id sample_config 2024
                  (sample_db [ sample_month 1 "Enero" [] [] [ ("c1", []) ] ] []))
           _ _ Hm Hitem).
Defined.

(** ** The annual export *)






(** * Properties of the remaining handlers *)

(** ** Configuration *)

Lemma with_family_config_same (db : Db) : with_family_config (family_config db) db = db.
Proof. now destruct db. Qed.

Lemma with_budget_months_same (db : Db) : with_budget_months (budget_months db) db = db.
Proof. now destruct db. Qed.

Lemma get_family_config_nonempty (default_config : FamilyConfig.t) (db : Db) :
  family_config (snd (get_family_config default_config db)) <> [].
Proof.
  unfold get_family_config.
  destruct (family_config db) as [|config rest] eqn:E; simpl; congruence.
Qed.

Lemma get_family_config_fixed (default_config : FamilyConfig.t) (db : Db) :
  family_config db <> [] -> snd (get_family_config default_config db) = db.
Proof.
  unfold get_family_config.
  destruct (family_config db) as [|config rest]; simpl; congruence.
Qed.

(** X1.  [get_family_config] creates the default configuration once: a
    second call returns the same configuration and leaves the store as
    the first call left it; a store that has a configuration is not
    changed, and the months and the dismissal log never are. *)
Theorem X1_get_family_config_idempotent (default_config : FamilyConfig.t) (db : Db) :
  get_family_config default_config (snd (get_family_config default_config db))
  = get_family_config default_config db /\
  family_config (snd (get_family_config default_config db)) <> [] /\
  (family_config db <> [] -> snd (get_family_config default_config db) = db) /\
  (family_config db = [] ->
   fst (get_family_config default_config db) = default_config) /\
  budget_months (snd (get_family_config default_config db)) = budget_months db /\
  dismissed_alerts (snd (get_family_config default_config db)) = dismissed_alerts db.
Proof.
  unfold get_family_config.
  destruct (family_config db) as [|config rest] eqn:E; simpl.
  - repeat split; congruence.
  - rewrite E. repeat split; congruence.
Qed.

Lemma py_abs_le (x b : Q) : (py_abs x <= b <-> - b <= x /\ x <= b)%Q.
Proof.
  unfold py_abs. destruct (Qle_bool 0 x) eqn:E.
  - apply Qle_bool_iff in E. split.
    + intros H. split; [|exact H].
      apply Qle_trans with 0%Q; [|exact E].
      apply (Qopp_le_compat 0 b). eapply Qle_trans; eassumption.
    + tauto.
  - assert (Hneg : (x < 0)%Q).
    { apply Qnot_le_lt. intros H. apply Qle_bool_iff in H. congruence. }
    split.
    + intros H. split.
      * apply Qopp_le_compat in H. now rewrite Qopp_involutive in H.
      * apply Qle_trans with 0%Q; [now apply Qlt_le_weak|].
        apply Qle_trans with (- x)%Q; [|exact H].
        apply (Qopp_le_compat x 0). now apply Qlt_le_weak.
    + intros [H _]. apply Qopp_le_compat in H. now rewrite Qopp_involutive in H.
Qed.

(** The percentages are accepted when their sum is within 0.1 of 100. *)
Lemma percentages_accepted (ms : list FamilyMember.t) :
  Qgtb (py_abs (total_percentage ms - 100)) (1 # 10) = false <->
  (999 # 10 <= total_percentage ms /\ total_percentage ms <= 1001 # 10)%Q.
Proof.
  rewrite Qgtb_le, py_abs_le. split; intros [H1 H2]; split.
  - apply (Qplus_le_l _ _ (- (100))%Q). 
    eapply Qle_trans; [|exact H1]. unfold Qle. simpl. lia.
  - apply (Qplus_le_l _ _ (- (100))%Q).
    eapply Qle_trans; [exact H2|]. unfold Qle. simpl. lia.
  - apply (Qplus_le_l _ _ (- (100))%Q) in H1.
    eapply Qle_trans; [|exact H1]. unfold Qle. simpl. lia.
  - apply (Qplus_le_l _ _ (- (100))%Q) in H2.
    eapply Qle_trans; [exact H2|]. unfold Qle. simpl. lia.
Qed.

Lemma current_config_cons (default_config c : FamilyConfig.t)
    (rest : list FamilyConfig.t) (db : Db) :
  family_config db = c :: rest -> current_config default_config db = c.
Proof. intros E. unfold current_config, get_family_config. now rewrite E. Qed.

Lemma current_config_nil (default_config : FamilyConfig.t) (db : Db) :
  family_config db = [] -> current_config default_config db = default_config.
Proof. intros E. unfold current_config, get_family_config. now rewrite E. Qed.

(** What a write to the first configuration document leaves in the
    store after [get_family_config] has run. *)
Lemma config_write (default_config : FamilyConfig.t)
    (members : option (list FamilyMember.t))
    (categories : option (list ExpenseCategory.t)) (db : Db) :
  let db1 := snd (get_family_config default_config db) in
  let db2 :=
    with_family_config
      (update_one (fun _ => true) (set_config_fields members categories)
         (family_config db1)) db1 in
  current_config default_config db2
  = set_config_fields members categories (current_config default_config db) /\
  budget_months db2 = budget_months db /\
  dismissed_alerts db2 = dismissed_alerts db.
Proof.
  unfold current_config, get_family_config.
  destruct (family_config db) as [|c rest] eqn:E; simpl; [auto|].
  rewrite E. simpl. auto.
Qed.

Lemma update_family_config_rejects (default_config : FamilyConfig.t)
    (str_number : Q -> string) (ms : list FamilyMember.t)
    (categories : option (list ExpenseCategory.t))
    (bank_accounts : option (list BankAccount.t)) (db : Db) :
  (total_percentage ms < 999 # 10 \/ 1001 # 10 < total_percentage ms)%Q ->
  update_family_config default_config str_number (Some ms) categories
    bank_accounts db
  = (Raise (HTTPException 400
              ("Los porcentajes deben sumar 100% (actual: "
               +:+ str_number (total_percentage ms) +:+ "%)")), db).
Proof.
  intros H. unfold update_family_config.
  destruct (Qgtb (py_abs (total_percentage ms - 100)) (1 # 10)) eqn:E;
    [reflexivity|].
  apply percentages_accepted in E as [H1 H2].
  destruct H as [H|H]; exfalso; eapply Qlt_not_le; eassumption.
Qed.

(** X2.  [update_family_config] with a member list raises the 400 and
    leaves the store unchanged when the percentages sum to less than
    99.9 or more than 100.1, and otherwise returns a configuration
    whose members are the given list. *)
Theorem X2_update_family_config_validates_percentages
    (default_config : FamilyConfig.t) (str_number : Q -> string)
    (ms : list FamilyMember.t) (categories : option (list ExpenseCategory.t))
    (bank_accounts : option (list BankAccount.t)) (db : Db) :
  ((total_percentage ms < 999 # 10 \/ 1001 # 10 < total_percentage ms)%Q ->
   update_family_config default_config str_number (Some ms) categories
     bank_accounts db
   = (Raise (HTTPException 400
               ("Los porcentajes deben sumar 100% (actual: "
                +:+ str_number (total_percentage ms) +:+ "%)")), db)) /\
  ((999 # 10 <= total_percentage ms /\ total_percentage ms <= 1001 # 10)%Q ->
   exists config,
     fst (update_family_config default_config str_number (Some ms) categories
            bank_accounts db) = Ok config /\
     FamilyConfig.members config = Some ms /\
     current_config default_config
       (snd (update_family_config default_config str_number (Some ms) categories
               bank_accounts db)) = config).
Proof.
  split; [apply update_family_config_rejects|].
  unfold update_family_config.
  - intros H. apply percentages_accepted in H. rewrite H.
    unfold current_config, upsert_config, get_family_config.
    destruct (family_config db) as [|c rest]; simpl; eauto.
Qed.

Lemma X2_update_family_config_validates_percentages_witness :
  (999 # 10 <= total_percentage [ FamilyMember.mk "m1" "Nata" 52;
                                  FamilyMember.mk "m2" "Jon" 48 ] /\
   total_percentage [ FamilyMember.mk "m1" "Nata" 52;
                      FamilyMember.mk "m2" "Jon" 48 ] <= 1001 # 10)%Q /\
  exists config,
    fst (update_family_config sample_config (fun _ => "100") 
           (Some [ FamilyMember.mk "m1" "Nata" 52; FamilyMember.mk "m2" "Jon" 48 ])
           None None (sample_db [] [])) = Ok config /\
    FamilyConfig.members config
    = Some [ FamilyMember.mk "m1" "Nata" 52; FamilyMember.mk "m2" "Jon" 48 ] /\
    current_config sample_config
      (snd (update_family_config sample_config (fun _ => "100")
              (Some [ FamilyMember.mk "m1" "Nata" 52; FamilyMember.mk "m2" "Jon" 48 ])
              None None (sample_db [] []))) = config.
Proof.
  assert (H : (999 # 10 <= total_percentage [ FamilyMember.mk "m1" "Nata" 52;
                                              FamilyMember.mk "m2" "Jon" 48 ] /\
               total_percentage [ FamilyMember.mk "m1" "Nata" 52;
                                  FamilyMember.mk "m2" "Jon" 48 ] <= 1001 # 10)%Q)
    by (split; vm_compute; discriminate).
  split; [exact H|].
  exact (proj2 (X2_update_family_config_validates_percentages sample_config
                  (fun _ => "100") _ None None (sample_db [] [])) H).
Defined.

(** X3.  A field [update_family_config] is not given keeps its value,
    and a field it is given replaces it; on a store that has no
    configuration the update creates one from the given fields alone,
    so the default configuration is not created. *)
Theorem X3_update_family_config_sets_given_fields
    (default_config : FamilyConfig.t) (str_number : Q -> string)
    (categories : option (list ExpenseCategory.t))
    (bank_accounts : option (list BankAccount.t)) (db : Db) :
  exists config,
    update_family_config default_config str_number None categories
      bank_accounts db
    = (Ok config,
       with_family_config (config :: tail (family_config db)) db) /\
    match family_config db with
    | [] =>
        config = {| FamilyConfig.members := None;
                    FamilyConfig.categories := categories |}
    | c :: _ =>
        FamilyConfig.members config = FamilyConfig.members c /\
        FamilyConfig.categories config
        = match categories with
          | Some cs => Some cs
          | None => FamilyConfig.categories c
          end
    end.
Proof.
  unfold update_family_config, upsert_config, get_family_config.
  destruct (family_config db) as [|c rest]; simpl; eauto.
Qed.


Lemma add_family_member_members (default_config : FamilyConfig.t)
    (new_id name : string) (percentage : Q) (db : Db) :
  FamilyConfig.members
    (current_config default_config
       (snd (add_family_member default_config new_id name percentage db)))
  = Some (default [] (FamilyConfig.members (current_config default_config db))
          ++ [ {| FamilyMember.id := new_id; FamilyMember.name := name;
                  FamilyMember.percentage := percentage |} ]).
Proof.
  unfold add_family_member.
  destruct (config_write default_config
              (Some (default [] (FamilyConfig.members
                                   (current_config default_config db))
                     ++ [ {| FamilyMember.id := new_id;
                             FamilyMember.name := name;
                             FamilyMember.percentage := percentage |} ]))
              None db) as (Hc & _).
  unfold current_config in *.
  destruct (get_family_config default_config db) as [config db1].
  simpl in *. now rewrite Hc.
Qed.

Lemma delete_family_member_members (default_config : FamilyConfig.t)
    (member_id : string) (db : Db) :
  FamilyConfig.members
    (current_config default_config
       (snd (delete_family_member default_config member_id db)))
  = Some (List.filter (fun m => negb (String.eqb (FamilyMember.id m) member_id))
            (default [] (FamilyConfig.members (current_config default_config db)))).
Proof.
  unfold delete_family_member.
  destruct (config_write default_config
              (Some (List.filter
                       (fun m => negb (String.eqb (FamilyMember.id m) member_id))
                       (default [] (FamilyConfig.members
                                      (current_config default_config db)))))
              None db) as (Hc & _).
  unfold current_config in *.
  destruct (get_family_config default_config db) as [config db1].
  simpl in *. now rewrite Hc.
Qed.

Lemma filter_all {A : Type} (p : A -> bool) (l : list A) :
  (forall x, In x l -> p x = true) -> List.filter p l = l.
Proof.
  induction l as [|x l IH]; simpl; intros H; [reflexivity|].
  rewrite (H x (or_introl eq_refl)), IH; [reflexivity|].
  intros y Hy. apply H. now right.
Qed.

(** X5.  [delete_family_member] always answers "Member deleted", also
    when no member has the id.  Afterwards the configured members are
    the former ones without those of that id, in their order: no member
    has the id, and when none had it the list is unchanged. *)
Theorem X5_delete_family_member_removes_id (default_config : FamilyConfig.t)
    (member_id : string) (db : Db) :
  let before := default [] (FamilyConfig.members (current_config default_config db)) in
  let r := delete_family_member default_config member_id db in
  let after :=
    default [] (FamilyConfig.members (current_config default_config (snd r))) in
  fst r = "Member deleted" /\
  (forall m, In m after <-> In m before /\ FamilyMember.id m <> member_id) /\
  after
  = List.filter (fun m => negb (String.eqb (FamilyMember.id m) member_id)) before /\
  ((forall m, In m before -> FamilyMember.id m <> member_id) -> after = before).
Proof.
  intros before r after.
  assert (Hafter : after = List.filter
                             (fun m => negb (String.eqb (FamilyMember.id m) member_id))
                             before).
  { subst after r before. now rewrite delete_family_member_members. }
  split; [|split; [|split; [exact Hafter|]]].
  - subst r. unfold delete_family_member.
    now destruct (get_family_config default_config db).
  - intros m. rewrite Hafter, filter_In, negb_true_iff.
    destruct (String.eqb_spec (FamilyMember.id m) member_id); intuition congruence.
  - intros H. rewrite Hafter. apply filter_all. intros m Hm.
    apply negb_true_iff, String.eqb_neq. now apply H.
Qed.

(** X6.  Adding a member under an id no configured member has and then
    deleting that id gives back the configured members. *)
Theorem X6_add_then_delete_member (default_config : FamilyConfig.t)
    (new_id name : string) (percentage : Q) (db : Db) :
  (forall m,
     In m (default [] (FamilyConfig.members (current_config default_config db))) ->
     FamilyMember.id m <> new_id) ->
  default []
    (FamilyConfig.members
       (current_config default_config
          (snd (delete_family_member default_config new_id
                  (snd (add_family_member default_config new_id name percentage
                          db))))))
  = default [] (FamilyConfig.members (current_config default_config db)).
Proof.
  intros Hfresh.
  rewrite delete_family_member_members, add_family_member_members. simpl.
  rewrite List.filter_app. simpl. rewrite String.eqb_refl. simpl.
  rewrite app_nil_r. apply filter_all. intros m Hm.
  apply negb_true_iff, String.eqb_neq. now apply Hfresh.
Qed.

Lemma X6_add_then_delete_member_witness :
  (forall m,
     In m (default []
             (FamilyConfig.members (current_config sample_config (sample_db [] [])))) ->
     FamilyMember.id m <> "m3") /\
  default []
    (FamilyConfig.members
       (current_config sample_config
          (snd (delete_family_member sample_config "m3"
                  (snd (add_family_member sample_config "m3" "Ana" 10
                          (sample_db [] [])))))))
  = default []
      (FamilyConfig.members (current_config sample_config (sample_db [] []))).
Proof.
  assert (H : forall m,
            In m (default []
                    (FamilyConfig.members
                       (current_config sample_config (sample_db [] [])))) ->
            FamilyMember.id m <> "m3").
  { intros m [<-|[<-|[]]]; discriminate. }
  split; [exact H|].
  exact (X6_add_then_delete_member sample_config "m3" "Ana" 10 (sample_db [] []) H).
Defined.

(** ** Categories and the labels they resolve to *)

Lemma find_app_last {A : Type} (p : A -> bool) (l : list A) (x : A) :
  List.find p (l ++ [x]) =
  match List.find p l with
  | Some y => Some y
  | None => if p x then Some x else None
  end.
Proof.
  induction l as [|y l IH]; simpl; [reflexivity|].
  destruct (p y); [reflexivity|exact IH].
Qed.

Lemma find_filter_other {A : Type} (p q : A -> bool) (l : list A) :
  (forall x, p x = true -> q x = true) ->
  List.find p (List.filter q l) = List.find p l.
Proof.
  intros Hpq. induction l as [|x l IH]; simpl; [reflexivity|].
  destruct (q x) eqn:Eq; simpl.
  - destruct (p x); [reflexivity|exact IH].
  - destruct (p x) eqn:Ep; [|exact IH].
    rewrite (Hpq x Ep) in Eq. discriminate.
Qed.

Lemma find_filter_none {A : Type} (p q : A -> bool) (l : list A) :
  (forall x, p x = true -> q x = false) ->
  List.find p (List.filter q l) = None.
Proof.
  intros Hpq. induction l as [|x l IH]; simpl; [reflexivity|].
  destruct (q x) eqn:Eq; simpl; [|exact IH].
  destruct (p x) eqn:Ep; [|exact IH].
  rewrite (Hpq x Ep) in Eq. discriminate.
Qed.

Lemma add_category_categories (default_config : FamilyConfig.t)
    (new_id name icon color : string) (db : Db) :
  FamilyConfig.categories
    (current_config default_config
       (snd (add_category default_config new_id name icon color db)))
  = Some (default [] (FamilyConfig.categories (current_config default_config db))
          ++ [ {| ExpenseCategory.id := new_id; ExpenseCategory.name := name;
                  ExpenseCategory.icon := icon; ExpenseCategory.color := color |} ]).
Proof.
  unfold add_category.
  destruct (config_write default_config None
              (Some (default [] (FamilyConfig.categories
                                   (current_config default_config db))
                     ++ [ {| ExpenseCategory.id := new_id;
                             ExpenseCategory.name := name;
                             ExpenseCategory.icon := icon;
                             ExpenseCategory.color := color |} ]))
              db) as (Hc & _).
  unfold current_config in *.
  destruct (get_family_config default_config db) as [config db1].
  simpl in *. now rewrite Hc.
Qed.

Lemma delete_category_categories (default_config : FamilyConfig.t)
    (category_id : string) (db : Db) :
  FamilyConfig.categories
    (current_config default_config
       (snd (delete_category default_config category_id db)))
  = Some (List.filter
            (fun c => negb (String.eqb (ExpenseCategory.id c) category_id))
            (default [] (FamilyConfig.categories (current_config default_config db)))).
Proof.
  unfold delete_category.
  destruct (config_write default_config None
              (Some (List.filter
                       (fun c => negb (String.eqb (ExpenseCategory.id c) category_id))
                       (default [] (FamilyConfig.categories
                                      (current_config default_config db)))))
              db) as (Hc & _).
  unfold current_config in *.
  destruct (get_family_config default_config db) as [config db1].
  simpl in *. now rewrite Hc.
Qed.

(** X7.  After [add_category] the new id resolves to the new name when
    no configured category had the id; an id that was configured keeps
    the name it resolved to, also when it is the new id, and every other
    id resolves as before. *)
Theorem X7_add_category_resolution (default_config : FamilyConfig.t)
    (new_id name icon color : string) (db : Db) (cat_id : string) :
  let before := current_config default_config db in
  let after :=
    current_config default_config
      (snd (add_category default_config new_id name icon color db)) in
  ((exists c, In c (default [] (FamilyConfig.categories before)) /\
              ExpenseCategory.id c = cat_id) ->
   category_name after cat_id = category_name before cat_id) /\
  (cat_id <> new_id -> category_name after cat_id = category_name before cat_id) /\
  ((forall c, In c (default [] (FamilyConfig.categories before)) ->
              ExpenseCategory.id c <> new_id) ->
   category_name after new_id = name).
Proof.
  intros before after.
  assert (Hname : forall cid,
    category_name after cid =
    match List.find (fun c => String.eqb (ExpenseCategory.id c) cid)
            (default [] (FamilyConfig.categories before)) with
    | Some c => ExpenseCategory.name c
    | None => if String.eqb new_id cid then name else "Otros"
    end).
  { intros cid. subst after. unfold category_name at 1.
    rewrite add_category_categories. simpl. rewrite find_app_last. simpl.
    fold before. destruct (List.find _ _); [reflexivity|].
    now destruct (String.eqb new_id cid). }
  split; [|split].
  - intros (c & Hc & Hid). rewrite Hname. unfold category_name.
    destruct (List.find _ _) eqn:E; [reflexivity|].
    apply (find_none _ _ E) in Hc. apply String.eqb_neq in Hc. contradiction.
  - intros Hne. rewrite Hname. unfold category_name.
    destruct (List.find _ _); [reflexivity|].
    destruct (String.eqb_spec new_id cat_id); [congruence|reflexivity].
  - intros Hfresh. rewrite Hname.
    destruct (List.find _ _) eqn:E.
    + apply find_some in E as [Hin Hid]. apply String.eqb_eq in Hid.
      exfalso. exact (Hfresh _ Hin Hid).
    + now rewrite String.eqb_refl.
Qed.

(** X8.  After [delete_category] the deleted id resolves to "Otros" and
    every other id resolves as before. *)
Theorem X8_delete_category_resolution (default_config : FamilyConfig.t)
    (category_id : string) (db : Db) (cat_id : string) :
  let before := current_config default_config db in
  let after :=
    current_config default_config
      (snd (delete_category default_config category_id db)) in
  fst (delete_category default_config category_id db) = "Category deleted" /\
  category_name after category_id = "Otros" /\
  (cat_id <> category_id -> category_name after cat_id = category_name before cat_id).
Proof.
  intros before after. split; [|split].
  - unfold delete_category. now destruct (get_family_config default_config db).
  - subst after. unfold category_name. rewrite delete_category_categories. simpl.
    rewrite find_filter_none; [reflexivity|].
    intros c Hc. now rewrite Hc.
  - intros Hne. subst after. unfold category_name.
    rewrite delete_category_categories. simpl. fold before.
    rewrite find_filter_other; [reflexivity|].
    intros c Hc. apply String.eqb_eq in Hc. apply negb_true_iff, String.eqb_neq.
    congruence.
Qed.

(** ** Months *)

Lemma month_matches_key (year month : Z) (m : MonthData.t) :
  month_matches year month m = true <-> month_key m = (year, month).
Proof.
  unfold month_matches, month_key. rewrite andb_true_iff, !Z.eqb_eq.
  split; [intros [-> ->]; reflexivity|intros H; injection H; auto].
Qed.

Lemma month_matches_other (year month : Z) (m : MonthData.t) :
  month_key m <> (year, month) -> month_matches year month m = false.
Proof.
  intros H. destruct (month_matches year month m) eqn:E; [|reflexivity].
  apply month_matches_key in E. contradiction.
Qed.

Lemma find_month_None (year month : Z) (coll : list MonthData.t) :
  find_month year month coll = None <-> ~ In (year, month) (map month_key coll).
Proof.
  unfold find_month. induction coll as [|m coll IH]; simpl; [tauto|].
  destruct (month_matches year month m) eqn:E.
  - apply month_matches_key in E. split; [discriminate|]. intros H. tauto.
  - rewrite IH. split; [|tauto]. intros H [Hk|Hin]; [|tauto].
    apply month_matches_key in Hk. congruence.
Qed.

Lemma find_month_Some (year month : Z) (coll : list MonthData.t) (m : MonthData.t) :
  find_month year month coll = Some m -> In m coll /\ month_key m = (year, month).
Proof.
  intros H. apply find_some in H as [Hin Hm].
  now apply month_matches_key in Hm.
Qed.

Lemma find_month_app (year month : Z) (coll : list MonthData.t) (doc : MonthData.t) :
  find_month year month (coll ++ [doc]) =
  match find_month year month coll with
  | Some m => Some m
  | None => if month_matches year month doc then Some doc else None
  end.
Proof. apply find_app_last. Qed.

Lemma new_month_document_key (data : MonthDataCreate.t) :
  month_key (new_month_document data)
  = (MonthDataCreate.year data, MonthDataCreate.month data).
Proof. reflexivity. Qed.

(** X9.  [create_month] raises the 400 and leaves the store unchanged
    exactly when a document with the year and month exists, whatever the
    month number.  Otherwise it appends the document, [get_month] for
    that year and month then returns it, and the documents of the other
    keys are found as before.  Creating the same month again always
    raises the 400. *)
Theorem X9_create_month_then_get_month (data : MonthDataCreate.t) (db : Db) :
  let year := MonthDataCreate.year data in
  let month := MonthDataCreate.month data in
  let doc := new_month_document data in
  match find_month year month (budget_months db) with
  | Some _ =>
      create_month data db = (Raise (HTTPException 400 "Month already exists"), db)
  | None =>
      create_month data db
      = (Ok doc, with_budget_months (budget_months db ++ [doc]) db) /\
      get_month year month (snd (create_month data db)) = Ok doc /\
      forall year' month',
        (year', month') <> (year, month) ->
        get_month year' month' (snd (create_month data db))
        = get_month year' month' db
  end /\
  create_month data (snd (create_month data db))
  = (Raise (HTTPException 400 "Month already exists"), snd (create_month data db)).
Proof.
  intros year month doc. unfold create_month. fold year month doc.
  destruct (find_month year month (budget_months db)) eqn:E; simpl.
  - split; [reflexivity|]. now rewrite E.
  - assert (Hdoc : month_matches year month doc = true)
      by (apply month_matches_key; reflexivity).
    assert (Hfind : find_month year month (budget_months db ++ [doc]) = Some doc)
      by (now rewrite find_month_app, E, Hdoc).
    split; [split; [reflexivity|split]|].
    + unfold get_month. simpl. now rewrite Hfind.
    + intros year' month' Hne. unfold get_month. simpl.
      rewrite find_month_app.
      destruct (find_month year' month' (budget_months db)); [reflexivity|].
      rewrite month_matches_other; [reflexivity|].
      subst doc. rewrite new_month_document_key.
      intros Heq. apply Hne. symmetry. exact Heq.
    + now rewrite Hfind.
Qed.

Lemma update_one_keys (p : MonthData.t -> bool) (data : MonthDataUpdate.t)
    (coll : list MonthData.t) :
  map month_key (update_one p (set_month_fields data) coll) = map month_key coll.
Proof.
  induction coll as [|m coll IH]; simpl; [reflexivity|].
  destruct (p m); simpl; [reflexivity|now rewrite IH].
Qed.

Lemma update_one_no_match {A : Type} (p : A -> bool) (f : A -> A) (coll : list A) :
  List.find p coll = None -> update_one p f coll = coll.
Proof.
  induction coll as [|x coll IH]; simpl; [reflexivity|].
  destruct (p x); [discriminate|]. intros H. now rewrite IH.
Qed.

Lemma delete_one_no_match {A : Type} (p : A -> bool) (coll : list A) :
  List.find p coll = None -> delete_one p coll = coll.
Proof.
  induction coll as [|x coll IH]; simpl; [reflexivity|].
  destruct (p x); [discriminate|]. intros H. now rewrite IH.
Qed.

Lemma find_update_one_same (year month : Z) (data : MonthDataUpdate.t)
    (coll : list MonthData.t) (m : MonthData.t) :
  find_month year month coll = Some m ->
  find_month year month
    (update_one (month_matches year month) (set_month_fields data) coll)
  = Some (set_month_fields data m).
Proof.
  unfold find_month. induction coll as [|x coll IH]; simpl; [discriminate|].
  destruct (month_matches year month x) eqn:E; simpl.
  - intros H. injection H as <-.
    assert (Hx : month_matches year month (set_month_fields data x) = true)
      by exact E.
    now rewrite Hx.
  - rewrite E. exact IH.
Qed.

Lemma find_update_one_other (year month year' month' : Z)
    (data : MonthDataUpdate.t) (coll : list MonthData.t) :
  (year', month') <> (year, month) ->
  option_map month_key
    (find_month year' month'
       (update_one (month_matches year month) (set_month_fields data) coll))
  = option_map month_key (find_month year' month' coll) /\
  find_month year' month'
    (update_one (month_matches year month) (set_month_fields data) coll)
  = find_month year' month' coll.
Proof.
  intros Hne.
  assert (H : find_month year' month'
                (update_one (month_matches year month) (set_month_fields data) coll)
              = find_month year' month' coll).
  { unfold find_month. induction coll as [|x coll IH]; simpl; [reflexivity|].
    destruct (month_matches year month x) eqn:E; simpl.
    - assert (Hx : month_matches year' month' (set_month_fields data x)
                   = month_matches year' month' x) by reflexivity.
      rewrite Hx. apply month_matches_key in E.
      rewrite month_matches_other; [reflexivity|congruence].
    - destruct (month_matches year' month' x); [reflexivity|exact IH]. }
  now rewrite H.
Qed.

(** X10.  [update_month] raises the 404 and leaves the store unchanged
    exactly when no document has the year and month.  Otherwise the
    first such document gets the given fields, keeps its year, month,
    name and the fields that are not given, and is returned; the number
    of documents and the documents of every other key are unchanged. *)
Theorem X10_update_month_sets_given_fields (year month : Z)
    (data : MonthDataUpdate.t) (db : Db) :
  match find_month year month (budget_months db) with
  | None =>
      update_month year month data db
      = (Raise (HTTPException 404 "Month not found"), db)
  | Some m =>
      fst (update_month year month data db) = Ok (Some (set_month_fields data m)) /\
      get_month year month (snd (update_month year month data db))
      = Ok (set_month_fields data m) /\
      MonthData.month_name (set_month_fields data m) = MonthData.month_name m /\
      (MonthDataUpdate.income data = None ->
       MonthData.income (set_month_fields data m) = MonthData.income m) /\
      (MonthDataUpdate.fixed_expenses data = None ->
       MonthData.fixed_expenses (set_month_fields data m)
       = MonthData.fixed_expenses m) /\
      (MonthDataUpdate.variable_expenses data = None ->
       MonthData.variable_expenses (set_month_fields data m)
       = MonthData.variable_expenses m) /\
      (MonthDataUpdate.category_expenses data = None ->
       MonthData.category_expenses (set_month_fields data m)
       = MonthData.category_expenses m) /\
      (MonthDataUpdate.bank_balances data = None ->
       MonthData.bank_balances (set_month_fields data m)
       = MonthData.bank_balances m) /\
      map month_key (budget_months (snd (update_month year month data db)))
      = map month_key (budget_months db) /\
      forall year' month',
        (year', month') <> (year, month) ->
        get_month year' month' (snd (update_month year month data db))
        = get_month year' month' db
  end.
Proof.
  unfold update_month.
  destruct (find_month year month (budget_months db)) as [m|] eqn:E; simpl.
  - split; [now rewrite (find_update_one_same _ _ _ _ _ E)|].
    split; [unfold get_month; simpl; now rewrite (find_update_one_same _ _ _ _ _ E)|].
    split; [reflexivity|].
    repeat (split; [intros H; simpl; now rewrite H|]).
    split; [apply update_one_keys|].
    intros year' month' Hne. unfold get_month. simpl.
    now rewrite (proj2 (find_update_one_other year month year' month' data
                          (budget_months db) Hne)).
  - rewrite update_one_no_match by exact E.
    now rewrite with_budget_months_same.
Qed.

Lemma find_delete_one_other (year month year' month' : Z) (coll : list MonthData.t) :
  (year', month') <> (year, month) ->
  find_month year' month' (delete_one (month_matches year month) coll)
  = find_month year' month' coll.
Proof.
  intros Hne. unfold find_month.
  induction coll as [|x coll IH]; simpl; [reflexivity|].
  destruct (month_matches year month x) eqn:E; simpl.
  - apply month_matches_key in E.
    rewrite month_matches_other; [reflexivity|congruence].
  - destruct (month_matches year' month' x); [reflexivity|exact IH].
Qed.

Lemma delete_one_length {A : Type} (p : A -> bool) (coll : list A) (x : A) :
  List.find p coll = Some x -> S (length (delete_one p coll)) = length coll.
Proof.
  induction coll as [|y coll IH]; simpl; [discriminate|].
  destruct (p y); [reflexivity|]. intros H. simpl. now rewrite IH.
Qed.

Lemma delete_one_keys_unique (year month : Z) (coll : list MonthData.t) :
  unique_keys coll ->
  unique_keys (delete_one (month_matches year month) coll) /\
  ~ In (year, month) (map month_key (delete_one (month_matches year month) coll)).
Proof.
  unfold unique_keys. induction coll as [|x coll IH]; simpl; intros Hnd.
  - split; [constructor|tauto].
  - inversion Hnd as [|? ? Hx Hnd']; subst.
    destruct (month_matches year month x) eqn:E.
    + split; [exact Hnd'|]. apply month_matches_key in E. congruence.
    + destruct (IH Hnd') as [H1 H2]. split.
      * simpl. constructor; [|exact H1]. intros Hin. apply Hx.
        clear - Hin. induction coll as [|y coll IH]; simpl in *; [tauto|].
        destruct (month_matches year month y); simpl in *; tauto.
      * simpl. intros [Hk|Hin]; [|tauto].
        apply month_matches_key in Hk. congruence.
Qed.

(** X11.  [delete_month] raises the 404 and leaves the store unchanged
    exactly when no document has the year and month.  Otherwise it
    removes one document, the first with that key, and the documents of
    every other key are found as before; when the keys of the store are
    unique, [get_month] for the deleted key then raises the 404. *)
Theorem X11_delete_month_removes_one (year month : Z) (db : Db) :
  match find_month year month (budget_months db) with
  | None =>
      delete_month year month db
      = (Raise (HTTPException 404 "Month not found"), db)
  | Some m =>
      fst (delete_month year month db) = Ok "Month deleted successfully" /\
      S (length (budget_months (snd (delete_month year month db))))
      = length (budget_months db) /\
      (forall year' month',
         (year', month') <> (year, month) ->
         get_month year' month' (snd (delete_month year month db))
         = get_month year' month' db) /\
      (unique_keys (budget_months db) ->
       get_month year month (snd (delete_month year month db))
       = Raise (HTTPException 404 "Month not found"))
  end.
Proof.
  unfold delete_month.
  destruct (find_month year month (budget_months db)) as [m|] eqn:E; simpl.
  - split; [reflexivity|]. split; [exact (delete_one_length _ _ _ E)|]. split.
    + intros year' month' Hne. unfold get_month. simpl.
      now rewrite find_delete_one_other.
    + intros Hu. unfold get_month. simpl.
      destruct (delete_one_keys_unique year month _ Hu) as [_ Hout].
      apply find_month_None in Hout. now rewrite Hout.
  - rewrite delete_one_no_match by exact E.
    now rewrite with_budget_months_same.
Qed.

Lemma year_month_before_false (a b : MonthData.t) :
  year_month_before b a = false <-> year_month_le a b.
Proof.
  unfold year_month_before, year_month_le.
  destruct (Z.ltb_spec (MonthData.year b) (MonthData.year a));
    destruct (Z.eqb_spec (MonthData.year b) (MonthData.year a));
    destruct (Z.ltb_spec (MonthData.month b) (MonthData.month a));
    simpl; split; intros Hyp; try discriminate; try reflexivity; lia.
Qed.

Lemma year_month_before_asym (a b : MonthData.t) :
  year_month_before a b = true -> year_month_before b a = false.
Proof.
  intros H. apply year_month_before_false.
  unfold year_month_before, year_month_le in *.
  apply orb_true_iff in H as [H|H].
  - apply Z.ltb_lt in H. now left.
  - apply andb_true_iff in H as [H1 H2].
    apply Z.eqb_eq in H1. apply Z.ltb_lt in H2. right. lia.
Qed.

Lemma year_month_before_trans (a b c : MonthData.t) :
  year_month_before b a = false -> year_month_before c b = false ->
  year_month_before c a = false.
Proof.
  rewrite !year_month_before_false. unfold year_month_le. lia.
Qed.

Lemma StronglySorted_take {A : Type} (R : A -> A -> Prop) (n : nat) (l : list A) :
  StronglySorted R l -> StronglySorted R (take n l).
Proof.
  intros Hs. revert n.
  induction Hs as [|x l Hs IH Hx]; intros [|n]; simpl; try constructor.
  - apply IH.
  - apply List.Forall_forall. intros y Hy.
    rewrite List.Forall_forall in Hx. apply Hx.
    apply list_elem_of_In. eapply subseteq_take, list_elem_of_In, Hy.
Qed.

(** X12.  [get_all_months] returns the documents ordered by year and,
    within a year, by month; it returns all of them when the store
    holds at most 1000, and the first 1000 in that order otherwise. *)
Theorem X12_get_all_months_ordered (db : Db) :
  StronglySorted year_month_le (get_all_months db) /\
  length (get_all_months db) = Nat.min (length (budget_months db)) 1000 /\
  (forall m, In m (get_all_months db) -> In m (budget_months db)) /\
  (length (budget_months db) <= 1000 ->
   Permutation (get_all_months db) (budget_months db)).
Proof.
  unfold get_all_months, to_list. split; [|split; [|split]].
  - apply StronglySorted_take.
    eapply StronglySorted_impl;
      [|apply stable_sort_sorted;
        [apply year_month_before_asym|apply year_month_before_trans]].
    intros a b. apply year_month_before_false.
  - rewrite length_take, stable_sort_length. lia.
  - intros m Hm. apply (stable_sort_In year_month_before).
    apply list_elem_of_In. eapply subseteq_take, list_elem_of_In, Hm.
  - intros Hlen. rewrite take_ge by (now rewrite stable_sort_length).
    apply stable_sort_perm.
Qed.

(** ** Creating a year *)

Lemma empty_month_key (year : Z) (members : list FamilyMember.t)
    (categories : list ExpenseCategory.t) (i : nat) :
  month_key (empty_month year members categories i) = (year, Z.of_nat i).
Proof. reflexivity. Qed.

Lemma month_absent_app (year : Z) (members : list FamilyMember.t)
    (categories : list ExpenseCategory.t) (coll : list MonthData.t) (i j : nat) :
  j <> i ->
  month_absent year (coll ++ [empty_month year members categories i]) j
  = month_absent year coll j.
Proof.
  intros Hne. unfold month_absent. rewrite find_month_app.
  destruct (find_month year (Z.of_nat j) coll); [reflexivity|].
  rewrite month_matches_other; [reflexivity|].
  rewrite empty_month_key. intros Heq. injection Heq as Heq. lia.
Qed.

(** The loop of [create_year] appends, in order, the empty months of
    the months that had no document, and counts them. *)
Lemma fold_create_year_month (year : Z) (members : list FamilyMember.t)
    (categories : list ExpenseCategory.t) (indices : list nat)
    (coll : list MonthData.t) (n : nat) :
  List.NoDup indices ->
  fold_left (create_year_month year members categories) indices (coll, n)
  = (coll ++ map (empty_month year members categories)
               (List.filter (month_absent year coll) indices),
     n + length (List.filter (month_absent year coll) indices)).
Proof.
  intros Hnd. revert coll n.
  induction Hnd as [|i indices Hi Hnd IH]; intros coll n; simpl.
  - now rewrite app_nil_r, Nat.add_0_r.
  - change (create_year_month year members categories (coll, n) i)
      with (match find_month year (Z.of_nat i) coll with
            | Some _ => (coll, n)
            | None => (coll ++ [empty_month year members categories i], S n)
            end).
    destruct (find_month year (Z.of_nat i) coll) eqn:E.
    + assert (Ha : month_absent year coll i = false)
        by (unfold month_absent; now rewrite E).
      rewrite Ha. apply IH.
    + assert (Ha : month_absent year coll i = true)
        by (unfold month_absent; now rewrite E).
      rewrite Ha, IH.
      assert (Hf : List.filter
                     (month_absent year
                        (coll ++ [empty_month year members categories i])) indices
                   = List.filter (month_absent year coll) indices).
      { apply filter_ext_in. intros j Hj. apply month_absent_app.
        intros ->. contradiction. }
      rewrite Hf. simpl. rewrite <- app_assoc. simpl. f_equal. lia.
Qed.

Lemma create_year_eq (default_config : FamilyConfig.t) (year : Z) (db : Db) :
  create_year default_config year db
  = ("Año " +:+ pretty year +:+ " creado con "
     +:+ pretty (length (missing_months year (budget_months db)))
     +:+ " meses nuevos",
     with_budget_months
       (budget_months db
        ++ map (empty_month year
                  (default [] (FamilyConfig.members (current_config default_config db)))
                  (default [] (FamilyConfig.categories
                                 (current_config default_config db))))
             (missing_months year (budget_months db)))
       (snd (get_family_config default_config db))).
Proof.
  unfold create_year, current_config, missing_months.
  pose proof (get_family_config_months default_config db) as Hm.
  destruct (get_family_config default_config db) as [config db1].
  cbn [fst snd] in *. cbv zeta.
  rewrite Hm, fold_create_year_month by apply seq_NoDup.
  rewrite Nat.add_0_l. reflexivity.
Qed.

Lemma missing_months_range (year : Z) (coll : list MonthData.t) (i : nat) :
  In i (missing_months year coll) <->
  1 <= i <= 12 /\ find_month year (Z.of_nat i) coll = None.
Proof.
  unfold missing_months, month_absent. rewrite filter_In, in_seq.
  destruct (find_month year (Z.of_nat i) coll); intuition (try discriminate; lia).
Qed.

Lemma find_app_Some {A : Type} (p : A -> bool) (l l' : list A) (x : A) :
  List.find p l = Some x -> List.find p (l ++ l') = Some x.
Proof.
  induction l as [|y l IH]; simpl; [discriminate|].
  destruct (p y); [trivial|exact IH].
Qed.

Lemma create_year_complete (default_config : FamilyConfig.t) (year : Z) (db : Db)
    (i : nat) :
  1 <= i <= 12 ->
  is_Some
    (find_month year (Z.of_nat i)
       (budget_months (snd (create_year default_config year db)))).
Proof.
  intros Hi. rewrite create_year_eq. simpl.
  destruct (find_month year (Z.of_nat i) (budget_months db)) eqn:E.
  - unfold find_month in *. erewrite find_app_Some by exact E. eauto.
  - assert (Hin : In i (missing_months year (budget_months db)))
      by (apply missing_months_range; auto).
    match goal with |- is_Some ?x => destruct x eqn:E' end; [eauto|].
    apply find_month_None in E'. exfalso. apply E'.
    rewrite map_app, in_app_iff. right. rewrite map_map.
    apply in_map_iff. exists i. split; [apply empty_month_key|exact Hin].
Qed.

(** X13.  [create_year] keeps the documents of the store and appends,
    for each month of 1 to 12 that has no document for the year, in
    ascending order, a document with the month's Spanish name, no
    expenses and no bank balances; it reports the number of documents
    it appended.  Afterwards every month of 1 to 12 has a document for
    the year. *)
Theorem X13_create_year_fills_missing_months (default_config : FamilyConfig.t)
    (year : Z) (db : Db) :
  let r := create_year default_config year db in
  exists new,
    budget_months (snd r) = budget_months db ++ new /\
    fst r = "Año " +:+ pretty year +:+ " creado con " +:+ pretty (length new)
            +:+ " meses nuevos" /\
    map MonthData.month new
    = map Z.of_nat (missing_months year (budget_months db)) /\
    StronglySorted Z.lt (map MonthData.month new) /\
    Forall
      (fun m =>
         MonthData.year m = year /\
         (exists i, 1 <= i <= 12 /\ MonthData.month m = Z.of_nat i /\
                    MonthData.month_name m = Some (nth (i - 1) month_names String.EmptyString) /\
                    find_month year (Z.of_nat i) (budget_months db) = None) /\
         MonthData.fixed_expenses m = Some [] /\
         MonthData.variable_expenses m = Some [] /\
         MonthData.bank_balances m = None)
      new /\
    (forall i, 1 <= i <= 12 ->
       is_Some (find_month year (Z.of_nat i) (budget_months (snd r)))) /\
    dismissed_alerts (snd r) = dismissed_alerts db.
Proof.
  intros r. subst r.
  pose proof (create_year_complete default_config year db) as Hcomplete.
  rewrite create_year_eq in *. simpl in *.
  eexists. split; [reflexivity|]. rewrite length_map.
  split; [reflexivity|]. split; [now rewrite map_map|]. split; [|split; [|split]].
  - rewrite map_map. simpl. unfold missing_months.
    assert (Hs : StronglySorted lt (seq 1 12)) by (repeat constructor; lia).
    revert Hs. generalize (seq 1 12). intros l Hl.
    induction Hl as [|x l Hl IH Hx]; simpl; [constructor|].
    destruct (month_absent year (budget_months db) x); simpl; [|exact IH].
    constructor; [exact IH|].
    apply List.Forall_forall. intros z Hz.
    apply in_map_iff in Hz as (j & <- & Hj). apply filter_In in Hj as [Hj _].
    rewrite List.Forall_forall in Hx. specialize (Hx j Hj). lia.
  - apply List.Forall_forall. intros m Hm.
    apply in_map_iff in Hm as (i & <- & Hi).
    apply missing_months_range in Hi as [Hr Hf]. simpl.
    split; [reflexivity|]. split; [|auto]. exists i. auto.
  - exact Hcomplete.
  - apply get_family_config_dismissed.
Qed.

(** X14.  Calling [create_year] again for the same year creates
    nothing: it reports 0 new months and leaves the store as the first
    call left it. *)
Theorem X14_create_year_idempotent (default_config : FamilyConfig.t) (year : Z)
    (db : Db) :
  create_year default_config year (snd (create_year default_config year db))
  = ("Año " +:+ pretty year +:+ " creado con 0 meses nuevos",
     snd (create_year default_config year db)).
Proof.
  assert (Hmissing :
    missing_months year
      (budget_months (snd (create_year default_config year db))) = []).
  { destruct (missing_months year _) as [|i l] eqn:E; [reflexivity|].
    assert (Hi : In i (missing_months year
                         (budget_months (snd (create_year default_config year db)))))
      by (rewrite E; now left).
    apply missing_months_range in Hi as [Hr Hf].
    destruct (create_year_complete default_config year db i Hr) as [m Hm].
    congruence. }
  rewrite (create_year_eq default_config year
             (snd (create_year default_config year db))), Hmissing.
  simpl. rewrite app_nil_r. f_equal.
  assert (Hcfg : family_config (snd (create_year default_config year db)) <> []).
  { rewrite create_year_eq. simpl. apply get_family_config_nonempty. }
  rewrite (get_family_config_fixed default_config _ Hcfg).
  apply with_budget_months_same.
Qed.

Lemma map_key_update_month (year month : Z) (data : MonthDataUpdate.t) (db : Db) :
  map month_key (budget_months (snd (update_month year month data db)))
  = map month_key (budget_months db).
Proof.
  unfold update_month.
  destruct (find_month year month (budget_months db)); simpl;
    apply update_one_keys.
Qed.

(** X15.  The writers of the month collection keep its keys unique:
    when no two documents have the same year and month, none have
    after [create_month], [update_month], [delete_month] or
    [create_year]. *)
Theorem X15_month_writers_keep_keys_unique (default_config : FamilyConfig.t)
    (created : MonthDataCreate.t) (year month : Z) (data : MonthDataUpdate.t)
    (db : Db) :
  unique_keys (budget_months db) ->
  unique_keys (budget_months (snd (create_month created db))) /\
  unique_keys (budget_months (snd (update_month year month data db))) /\
  unique_keys (budget_months (snd (delete_month year month db))) /\
  unique_keys (budget_months (snd (create_year default_config year db))).
Proof.
  intros Hu. split; [|split; [|split]].
  - unfold create_month.
    destruct (find_month _ _ _) eqn:E; simpl; [exact Hu|].
    apply find_month_None in E. unfold unique_keys in *.
    rewrite map_app. simpl. apply NoDup_ListNoDup, NoDup_app.
    split; [now apply NoDup_ListNoDup|]. split.
    + intros k Hk Hk'. apply list_elem_of_In in Hk.
      apply list_elem_of_singleton in Hk'. subst k. contradiction.
    + apply NoDup_singleton.
  - unfold unique_keys in *. now rewrite map_key_update_month.
  - unfold delete_month.
    destruct (find_month year month (budget_months db)); simpl;
      apply delete_one_keys_unique, Hu.
  - rewrite create_year_eq. simpl. unfold unique_keys in *.
    rewrite map_app, map_map. apply NoDup_ListNoDup, NoDup_app.
    split; [now apply NoDup_ListNoDup|]. split.
    + intros k Hk Hk'. apply list_elem_of_In in Hk, Hk'.
      apply in_map_iff in Hk' as (i & <- & Hi).
      apply missing_months_range in Hi as [_ Hf].
      apply find_month_None in Hf. rewrite empty_month_key in Hk. contradiction.
    + apply NoDup_ListNoDup, Finite.Injective_map_NoDup.
      * intros i j H. rewrite !empty_month_key in H. injection H as H. lia.
      * unfold missing_months. apply List.NoDup_filter, seq_NoDup.
Qed.

Lemma X15_month_writers_keep_keys_unique_witness :
  unique_keys (budget_months summary_db) /\
  unique_keys (budget_months (snd (create_month sample_create summary_db))) /\
  unique_keys
    (budget_months (snd (update_month 2024 1 sample_update summary_db))) /\
  unique_keys (budget_months (snd (delete_month 2024 1 summary_db))) /\
  unique_keys (budget_months (snd (create_year sample_config 2024 summary_db))).
Proof.
  assert (Hu : unique_keys (budget_months summary_db)).
  { unfold unique_keys. simpl. constructor; [intros []|constructor]. }
  split; [exact Hu|].
  exact (X15_month_writers_keep_keys_unique sample_config sample_create 2024 1
           sample_update summary_db Hu).
Defined.

(** ** A created year in the summary and in the alert feed *)

Lemma dict_set_values {V : Type} (P : V -> Prop) (k : string) (v : V)
    (d : list (string * V)) :
  P v -> List.Forall (fun kv => P (snd kv)) d ->
  List.Forall (fun kv => P (snd kv)) (dict_set k v d).
Proof.
  intros Hv. induction 1 as [|[k' v'] d Hkv Hd IH]; simpl.
  - repeat constructor. exact Hv.
  - destruct (String.eqb k' k); constructor; auto.
Qed.

Lemma fold_dict_set_values {A V : Type} (P : V -> Prop) (key : A -> string)
    (v : V) (l : list A) (d : list (string * V)) :
  P v -> List.Forall (fun kv => P (snd kv)) d ->
  List.Forall (fun kv => P (snd kv))
    (fold_left (fun d x => dict_set (key x) v d) l d).
Proof.
  intros Hv. revert d. induction l as [|x l IH]; intros d Hd; simpl; [exact Hd|].
  apply IH. now apply dict_set_values.
Qed.

Lemma py_sum_zeros (l : list Q) :
  List.Forall (fun x => x = 0%Q) l -> py_sum l = 0%Q.
Proof.
  unfold py_sum. induction 1 as [|x l Hx Hl IH]; simpl; [reflexivity|].
  subst x. exact IH.
Qed.

Lemma empty_month_income (year : Z) (members : list FamilyMember.t)
    (categories : list ExpenseCategory.t) (i : nat) :
  month_income (empty_month year members categories i) = 0%Q.
Proof.
  unfold month_income. simpl. apply py_sum_zeros, List.Forall_map.
  apply (fold_dict_set_values (fun v => v = 0%Q)); [reflexivity|constructor].
Qed.

Lemma empty_month_expenses (year : Z) (members : list FamilyMember.t)
    (categories : list ExpenseCategory.t) (i : nat) :
  month_expenses (empty_month year members categories i) = 0%Q.
Proof.
  unfold month_expenses, month_fixed, month_variable, month_category. simpl.
  match goal with
  | |- context [py_sum (map cat_total ?d)] =>
      rewrite (py_sum_zeros (map cat_total d)); [reflexivity|]
  end.
  apply List.Forall_map.
  eapply List.Forall_impl;
    [|apply (fold_dict_set_values (fun v => v = @nil ExpenseItem.t));
      [reflexivity|constructor]].
  intros [k v] Hv. simpl in Hv. unfold cat_total. simpl. now rewrite Hv.
Qed.

Lemma empty_month_no_alerts (config : FamilyConfig.t) (dk : gset string)
    (year : Z) (members : list FamilyMember.t)
    (categories : list ExpenseCategory.t) (i : nat) :
  month_alerts config dk (empty_month year members categories i) = [].
Proof.
  unfold month_alerts. simpl.
  assert (Hcats :
    List.Forall (fun kv => snd kv = @nil ExpenseItem.t)
      (fold_left (fun d cat => dict_set (ExpenseCategory.id cat) [] d)
         categories [])).
  { apply (fold_dict_set_values (fun v => v = @nil ExpenseItem.t));
      [reflexivity|constructor]. }
  induction Hcats as [|[k v] d Hv Hd IH]; simpl; [reflexivity|].
  simpl in Hv. subst v. unfold category_alerts at 1. simpl. exact IH.
Qed.

Lemma current_config_create_year (default_config : FamilyConfig.t) (year : Z)
    (db : Db) :
  current_config default_config (snd (create_year default_config year db))
  = current_config default_config db.
Proof.
  rewrite create_year_eq. unfold current_config, get_family_config. simpl.
  destruct (family_config db) as [|c rest] eqn:E; simpl; [reflexivity|].
  now rewrite E.
Qed.

Lemma encounter_order_app (config : FamilyConfig.t) (dk : gset string)
    (l1 l2 : list MonthData.t) :
  encounter_order config dk (l1 ++ l2)
  = encounter_order config dk l1 ++ encounter_order config dk l2.
Proof. apply flat_map_app. Qed.

Lemma encounter_order_no_alerts (config : FamilyConfig.t) (dk : gset string)
    (months : list MonthData.t) :
  List.Forall (fun m => month_alerts config dk m = []) months ->
  encounter_order config dk months = [].
Proof.
  unfold encounter_order. induction 1 as [|m months Hm Hl IH]; simpl;
    [reflexivity|]. now rewrite Hm, IH.
Qed.

(** X16.  [create_year] does not change the alert feed: the months it
    creates raise no alert. *)
Theorem X16_create_year_keeps_alert_feed (default_config : FamilyConfig.t)
    (year : Z) (db : Db) :
  fst (get_alerts default_config (snd (create_year default_config year db)))
  = fst (get_alerts default_config db).
Proof.
  rewrite !get_alerts_ok, current_config_create_year. f_equal. f_equal.
  assert (Hdk : read_dismissed_keys (snd (create_year default_config year db))
                = read_dismissed_keys db).
  { unfold read_dismissed_keys. rewrite create_year_eq. simpl.
    now rewrite get_family_config_dismissed. }
  rewrite Hdk. unfold alert_months, to_list. rewrite create_year_eq. simpl.
  rewrite take_app, encounter_order_app.
  rewrite (encounter_order_no_alerts _ _ (take _ (map _ _))); [apply app_nil_r|].
  apply List.Forall_forall. intros m Hm.
  apply list_elem_of_In in Hm. apply subseteq_take in Hm.
  apply list_elem_of_In, in_map_iff in Hm as (i & <- & _).
  apply empty_month_no_alerts.
Qed.

Lemma year_records_app (year : Z) (db : Db) (new : list MonthData.t) :
  year_records year (with_budget_months (budget_months db ++ new) db)
  = year_records year db
    ++ List.filter (fun m => (MonthData.year m =? year)%Z) new.
Proof. unfold year_records. simpl. apply List.filter_app. Qed.

Lemma missing_months_fresh (year : Z) (db : Db) :
  year_records year db = [] -> missing_months year (budget_months db) = seq 1 12.
Proof.
  intros Hnone. unfold missing_months. apply filter_all.
  intros i _. unfold month_absent.
  destruct (find_month year (Z.of_nat i) (budget_months db)) as [m|] eqn:E;
    [|reflexivity].
  apply find_month_Some in E as [Hin Hk].
  assert (Hm : In m (year_records year db)).
  { unfold year_records. apply filter_In. split; [exact Hin|].
    injection Hk as Hy _. now apply Z.eqb_eq. }
  rewrite Hnone in Hm. contradiction.
Qed.

(** The months [get_annual_summary] reads after [create_year] has run on
    a year that had none. *)
Lemma find_year_created (default_config : FamilyConfig.t) (year : Z) (db : Db) :
  year_records year db = [] ->
  find_year year (snd (create_year default_config year db))
  = map (empty_month year
           (default [] (FamilyConfig.members (current_config default_config db)))
           (default [] (FamilyConfig.categories (current_config default_config db))))
      (seq 1 12).
Proof.
  intros Hnone. unfold find_year. fold (year_records year
    (snd (create_year default_config year db))).
  assert (Hrec : year_records year (snd (create_year default_config year db))
                 = map (empty_month year
                          (default [] (FamilyConfig.members
                                         (current_config default_config db)))
                          (default [] (FamilyConfig.categories
                                         (current_config default_config db))))
                     (seq 1 12)).
  { rewrite create_year_eq, (missing_months_fresh year db Hnone).
    unfold year_records in *. simpl.
    rewrite List.filter_app, Hnone. simpl.
    rewrite !Z.eqb_refl. reflexivity. }
  rewrite Hrec. reflexivity.
Qed.

(** ** The savings projection and the member contributions *)

Lemma fold_credit_member (config : FamilyConfig.t) (incomes : list (string * Q))
    (d : gmap string Q) :
  fold_left (credit_member config) incomes d
  = fold_left add_contribution (omap (member_credit config) incomes) d.
Proof.
  revert d. induction incomes as [|[member_id amount] incomes IH]; intros d;
    simpl; [reflexivity|].
  unfold member_credit at 1. simpl.
  destruct (find_member config member_id); simpl; apply IH.
Qed.

Lemma fold_summarize_month_members (config : FamilyConfig.t)
    (months : list MonthData.t) (st : SummaryState) :
  st_member_contributions (fold_left (summarize_month config) months st)
  = fold_left add_contribution (member_credits config months)
      (st_member_contributions st).
Proof.
  unfold member_credits. revert st.
  induction months as [|m months IH]; intros st; simpl; [reflexivity|].
  rewrite IH, summarize_month_eq. simpl.
  rewrite omap_app, fold_left_app, fold_credit_member. reflexivity.
Qed.

(** The projection and the member contributions of the summary
    [get_annual_summary] returns. *)
Lemma get_annual_summary_projection (default_config : FamilyConfig.t) (year : Z)
    (db : Db) :
  find_year year db <> [] ->
  exists s,
    fst (get_annual_summary default_config year db) = Ok s /\
    AnnualSummary.savings_projection s
    = {| SavingsProjection.current_savings :=
           (AnnualSummary.total_income s - AnnualSummary.total_expenses s)%Q;
         SavingsProjection.avg_monthly_savings :=
           ((AnnualSummary.total_income s - AnnualSummary.total_expenses s)
            / len (find_year year db))%Q;
         SavingsProjection.projected_annual_savings :=
           ((AnnualSummary.total_income s - AnnualSummary.total_expenses s)
            + (AnnualSummary.total_income s - AnnualSummary.total_expenses s)
              / len (find_year year db)
              * inject_Z (12 - Z.of_nat (length (find_year year db))))%Q;
         SavingsProjection.months_tracked := length (find_year year db);
         SavingsProjection.remaining_months :=
           (12 - Z.of_nat (length (find_year year db)))%Z |} /\
    AnnualSummary.member_contributions s
    = fold_left add_contribution
        (member_credits (current_config default_config db) (find_year year db))
        (st_member_contributions
           (initial_summary_state (current_config default_config db))).
Proof.
  intros Hne. unfold get_annual_summary, current_config.
  destruct (get_family_config default_config db) as [config db']. simpl.
  destruct (find_year year db) as [|m months] eqn:E; [congruence|].
  unfold py_div. rewrite len_nonzero. simpl.
  eexists. split; [reflexivity|]. simpl. split; [reflexivity|].
  apply (fold_summarize_month_members config (m :: months)).
Qed.

Lemma find_year_length (year : Z) (db : Db) : length (find_year year db) <= 12.
Proof. unfold find_year, to_list. rewrite length_take. lia. Qed.

(** X17.  The savings projection of a summary is computed from its
    totals without raising: the current savings are the total savings,
    the average is the quotient of the total savings by the number of
    months read, a division that does not raise since a year without
    months has raised the 404 before, and the projected annual savings
    are the total savings plus the average times the remaining months.
    The months tracked are the months read, min(N, 12) of the N records
    of the year, the remaining months are 12 minus the months tracked
    and, as at most twelve months are read, between 0 and 11. *)
Theorem X17_savings_projection (default_config : FamilyConfig.t) (year : Z)
    (db : Db) :
  find_year year db <> [] ->
  exists s,
    fst (get_annual_summary default_config year db) = Ok s /\
    let p := AnnualSummary.savings_projection s in
    SavingsProjection.current_savings p = AnnualSummary.total_savings s /\
    SavingsProjection.months_tracked p
    = Nat.min 12 (length (year_records year db)) /\
    py_div (AnnualSummary.total_savings s)
      (inject_Z (Z.of_nat (SavingsProjection.months_tracked p)))
    = Ok (SavingsProjection.avg_monthly_savings p) /\
    SavingsProjection.projected_annual_savings p
    = (AnnualSummary.total_savings s
       + SavingsProjection.avg_monthly_savings p
         * inject_Z (SavingsProjection.remaining_months p))%Q /\
    SavingsProjection.remaining_months p
    = (12 - Z.of_nat (SavingsProjection.months_tracked p))%Z /\
    (0 <= SavingsProjection.remaining_months p <= 11)%Z.
Proof.
  intros Hne.
  destruct (get_annual_summary_ok default_config year db Hne)
    as (s & Hs & _ & _ & _ & Hts & _).
  destruct (get_annual_summary_projection default_config year db Hne)
    as (s' & Hs' & Hp & _).
  rewrite Hs in Hs'. injection Hs' as <-.
  exists s. split; [exact Hs|]. simpl. rewrite Hp, Hts. simpl.
  pose proof (find_year_length year db) as Hlen.
  pose proof (find_year_length_min year db) as Hmin.
  assert (Hpos : 0 < length (find_year year db)).
  { destruct (find_year year db); [congruence|simpl; lia]. }
  split; [reflexivity|]. split; [exact Hmin|].
  split; [|split; [reflexivity|split; [reflexivity|lia]]].
  fold (len (find_year year db)). unfold py_div.
  destruct (find_year year db) as [|m months]; [congruence|].
  now rewrite len_nonzero.
Qed.

Lemma X17_savings_projection_witness :
  find_year 2024 two_months_db <> [] /\
  exists s,
    fst (get_annual_summary sample_config 2024 two_months_db) = Ok s /\
    let p := AnnualSummary.savings_projection s in
    SavingsProjection.current_savings p = AnnualSummary.total_savings s /\
    SavingsProjection.months_tracked p
    = Nat.min 12 (length (year_records 2024 two_months_db)) /\
    py_div (AnnualSummary.total_savings s)
      (inject_Z (Z.of_nat (SavingsProjection.months_tracked p)))
    = Ok (SavingsProjection.avg_monthly_savings p) /\
    SavingsProjection.projected_annual_savings p
    = (AnnualSummary.total_savings s
       + SavingsProjection.avg_monthly_savings p
         * inject_Z (SavingsProjection.remaining_months p))%Q /\
    SavingsProjection.remaining_months p
    = (12 - Z.of_nat (SavingsProjection.months_tracked p))%Z /\
    (0 <= SavingsProjection.remaining_months p <= 11)%Z.
Proof.
  assert (Hne : find_year 2024 two_months_db <> []) by (vm_compute; discriminate).
  split; [exact Hne|].
  exact (X17_savings_projection sample_config 2024 two_months_db Hne).
Defined.

Lemma initial_members_lookup (members : list FamilyMember.t) (d : gmap string Q)
    (name : string) :
  (is_Some
     (fold_left (fun d mem => <[FamilyMember.name mem := 0%Q]> d) members d !! name)
   <-> is_Some (d !! name) \/
       exists mem, In mem members /\ FamilyMember.name mem = name) /\
  ((forall v, d !! name = Some v -> v = 0%Q) ->
   forall v,
     fold_left (fun d mem => <[FamilyMember.name mem := 0%Q]> d) members d !! name
     = Some v -> v = 0%Q).
Proof.
  revert d. induction members as [|mem members IH]; intros d; simpl.
  - split; [|auto]. split; [tauto|]. intros [H|(mem & [] & _)]. exact H.
  - destruct (IH (<[FamilyMember.name mem := 0%Q]> d)) as [H1 H2]. split.
    + rewrite H1. destruct (String.eqb_spec (FamilyMember.name mem) name) as [E|E].
      * rewrite E, lookup_insert_eq. split; [|eauto]. intros _. right. eauto.
      * rewrite lookup_insert_ne by exact E. split.
        -- intros [H|(m & Hm & Hn)]; [tauto|]. right. eauto.
        -- intros [H|(m & [Hm|Hm] & Hn)]; [tauto|congruence|]. right. eauto.
    + intros Hd. apply H2. intros v.
      destruct (String.eqb_spec (FamilyMember.name mem) name) as [E|E].
      * rewrite E, lookup_insert_eq. congruence.
      * rewrite lookup_insert_ne by exact E. apply Hd.
Qed.

(** X18.  [member_contributions] has an entry exactly for the names of
    the configured members.  The entry of a name holds the sum of the
    income amounts, over the months read, whose member id is that of a
    configured member with that name; income under an id that no
    configured member has is added to no entry. *)
Theorem X18_member_contributions (default_config : FamilyConfig.t) (year : Z)
    (db : Db) (name : string) :
  find_year year db <> [] ->
  exists s,
    fst (get_annual_summary default_config year db) = Ok s /\
    (is_Some (AnnualSummary.member_contributions s !! name) <->
     exists mem,
       In mem (default []
                 (FamilyConfig.members (current_config default_config db))) /\
       FamilyMember.name mem = name) /\
    (default 0 (AnnualSummary.member_contributions s !! name) ==
     py_sum
       (amounts_for name
          (member_credits (current_config default_config db) (find_year year db))))%Q /\
    (forall item,
       find_member (current_config default_config db) (fst item) = None ->
       member_credit (current_config default_config db) item = None).
Proof.
  intros Hne.
  destruct (get_annual_summary_projection default_config year db Hne)
    as (s & Hs & _ & Hmc).
  exists s. split; [exact Hs|]. rewrite Hmc. simpl.
  destruct (fold_add_contribution name
              (member_credits (current_config default_config db) (find_year year db))
              (fold_left (fun d mem => <[FamilyMember.name mem := 0%Q]> d)
                 (default [] (FamilyConfig.members
                                (current_config default_config db))) ∅))
    as [H1 H2].
  destruct (initial_members_lookup
              (default [] (FamilyConfig.members (current_config default_config db)))
              ∅ name) as [H3 H4].
  split; [|split].
  - rewrite H1, H3, lookup_empty. split.
    + intros [[H|H]|(amount & Hin)]; [destruct H; discriminate|exact H|].
      unfold member_credits in Hin. apply list_elem_of_In in Hin.
      apply list_elem_of_omap in Hin as ([mid a] & _ & Hcredit).
      unfold member_credit in Hcredit. simpl in Hcredit.
      destruct (find_member _ mid) as [mem|] eqn:E; [|discriminate].
      injection Hcredit as Hn _. apply find_some in E as [Hmem _].
      exists mem. auto.
    + intros H. left. right. exact H.
  - rewrite H2.
    assert (H0 : default 0%Q
                   (fold_left (fun d mem => <[FamilyMember.name mem := 0%Q]> d)
                      (default [] (FamilyConfig.members
                                     (current_config default_config db)))
                      (∅ : gmap string Q)
                    !! name) = 0%Q).
    { match goal with
      | |- default _ ?x = _ => destruct x as [v|] eqn:E; [|reflexivity]
      end.
      simpl. eapply H4; [|first [exact E|reflexivity]].
      intros v' Hv. rewrite lookup_empty in Hv. discriminate. }
    rewrite H0. ring.
  - intros item Hnone. unfold member_credit. now rewrite Hnone.
Qed.

Lemma X18_member_contributions_witness :
  find_year 2024 summary_db <> [] /\
  exists s,
    fst (get_annual_summary sample_config 2024 summary_db) = Ok s /\
    (is_Some (AnnualSummary.member_contributions s !! "Nata") <->
     exists mem,
       In mem (default []
                 (FamilyConfig.members (current_config sample_config summary_db))) /\
       FamilyMember.name mem = "Nata") /\
    (default 0 (AnnualSummary.member_contributions s !! "Nata") ==
     py_sum
       (amounts_for "Nata"
          (member_credits (current_config sample_config summary_db)
             (find_year 2024 summary_db))))%Q /\
    (forall item,
       find_member (current_config sample_config summary_db) (fst item) = None ->
       member_credit (current_config sample_config summary_db) item = None).
Proof.
  assert (Hne : find_year 2024 summary_db <> []) by (vm_compute; discriminate).
  split; [exact Hne|].
  exact (X18_member_contributions sample_config 2024 summary_db "Nata" Hne).
Defined.

(** ** Clearing and dismissing, composed with the feed *)

Lemma current_config_same_collection (default_config : FamilyConfig.t)
    (db db' : Db) :
  family_config db' = family_config db ->
  current_config default_config db' = current_config default_config db.
Proof.
  intros H. unfold current_config, get_family_config. rewrite H.
  now destruct (family_config db).
Qed.

Lemma current_config_stored (default_config : FamilyConfig.t) (db db' : Db) :
  family_config db' = family_config (snd (get_family_config default_config db)) ->
  current_config default_config db' = current_config default_config db.
Proof.
  intros H. unfold current_config. unfold get_family_config at 1. rewrite H.
  unfold get_family_config.
  destruct (family_config db) eqn:E; simpl; [reflexivity|].
  rewrite E. reflexivity.
Qed.

Lemma clear_all_alerts_store (default_config : FamilyConfig.t)
    (now : nat -> string) (db : Db) :
  family_config (snd (clear_all_alerts default_config now db))
  = family_config (snd (get_family_config default_config db)) /\
  budget_months (snd (clear_all_alerts default_config now db)) = budget_months db /\
  dismissed_alerts (snd (clear_all_alerts default_config now db))
  = fst (fold_left (dismiss_if_new now)
           (would_be_keys (current_config default_config db) (alert_months db))
           (dismissed_alerts db, 0)).
Proof.
  unfold clear_all_alerts, current_config, alert_months.
  pose proof (get_family_config_dismissed default_config db) as Hd.
  pose proof (get_family_config_months default_config db) as Hm.
  destruct (get_family_config default_config db) as [config db']. simpl in *.
  rewrite Hd, (fold_clear_month now config).
  destruct (fold_left _ _ _) as [log n]. simpl. auto.
Qed.

Lemma would_be_key_of_alerting (config : FamilyConfig.t) (dk : gset string)
    (months : list MonthData.t) (a : Alert.t) :
  In a (encounter_order config dk months) ->
  In (Alert.alert_key a) (would_be_keys config months) /\
  Alert.alert_key a ∉ dk.
Proof.
  intros Ha. apply in_encounter_order in Ha
    as (m & src & exp & Hm & Hsrc & Hexp & Hal & ->).
  apply alerting_spec in Hal as (Hb & Hp & Hk). split; [|exact Hk].
  unfold would_be_keys.
  apply (in_map Alert.alert_key _
           (item_alert m (fst (fst src)) (snd (fst src)) exp)).
  apply in_encounter_order. exists m, src, exp.
  repeat split; try assumption.
  apply alerting_spec. repeat split; try assumption. apply not_elem_of_empty.
Qed.

(** X20.  After [clear_all_alerts] the feed is empty, provided the
    dismissal log it leaves holds at most 1000 records, which is what
    [get_alerts] reads of it. *)
Theorem X20_clear_all_empties_feed (default_config : FamilyConfig.t)
    (now : nat -> string) (db : Db) :
  length (dismissed_alerts (snd (clear_all_alerts default_config now db))) <= 1000 ->
  fst (get_alerts default_config (snd (clear_all_alerts default_config now db)))
  = Ok [].
Proof.
  intros Hlen. rewrite get_alerts_ok.
  destruct (clear_all_alerts_store default_config now db) as (Hc & Hm & Hlog).
  assert (Hcfg : current_config default_config
                   (snd (clear_all_alerts default_config now db))
                 = current_config default_config db).
    by (apply current_config_stored; exact Hc).
  assert (Hmonths : alert_months (snd (clear_all_alerts default_config now db))
                    = alert_months db)
    by (unfold alert_months; now rewrite Hm).
  rewrite Hcfg, Hmonths.
  destruct (fold_dismiss_if_new now
              (would_be_keys (current_config default_config db) (alert_months db))
              (dismissed_alerts db) 0) as (new_keys & _ & Hin & Hkeys & _).
  rewrite <- Hlog in Hkeys.
  destruct (encounter_order _ _ _) as [|a l] eqn:E; [reflexivity|].
  exfalso.
  assert (Ha : In a (encounter_order (current_config default_config db)
                       (read_dismissed_keys
                          (snd (clear_all_alerts default_config now db)))
                       (alert_months db))) by (rewrite E; now left).
  apply would_be_key_of_alerting in Ha as [Hw Hout]. apply Hout.
  unfold read_dismissed_keys, to_list. rewrite take_ge by exact Hlen.
  apply elem_of_list_to_set, list_elem_of_In. rewrite Hkeys, in_app_iff.
  destruct (in_dec String.string_dec (Alert.alert_key a)
              (map DismissedAlert.alert_key (dismissed_alerts db)))
    as [Hold|Hnew]; [now left|]. right. apply Hin. tauto.
Qed.

Lemma X20_clear_all_empties_feed_witness :
  length (dismissed_alerts
            (snd (clear_all_alerts sample_config sample_clock one_dismissed_db)))
  <= 1000 /\
  fst (get_alerts sample_config
         (snd (clear_all_alerts sample_config sample_clock one_dismissed_db)))
  = Ok [].
Proof.
  assert (Hlen : length (dismissed_alerts
                           (snd (clear_all_alerts sample_config sample_clock
                                   one_dismissed_db))) <= 1000)
    by (vm_compute; lia).
  split; [exact Hlen|].
  exact (X20_clear_all_empties_feed sample_config sample_clock one_dismissed_db Hlen).
Defined.

Lemma fold_dismiss_if_new_known (now : nat -> string) (keys : list string)
    (log : list DismissedAlert.t) (n : nat) :
  (forall k, In k keys -> In k (map DismissedAlert.alert_key log)) ->
  fold_left (dismiss_if_new now) keys (log, n) = (log, n).
Proof.
  induction keys as [|k keys IH]; simpl; intros Hk; [reflexivity|].
  unfold dismiss_if_new at 2. simpl.
  destruct (find_dismissed k log) eqn:E.
  - apply IH. intros k' Hk'. apply Hk. now right.
  - apply find_dismissed_None in E. exfalso. apply E, Hk. now left.
Qed.

(** X21.  [clear_all_alerts] run again reports 0 and leaves the store
    as the first run left it. *)
Theorem X21_clear_all_alerts_idempotent (default_config : FamilyConfig.t)
    (now : nat -> string) (db : Db) :
  clear_all_alerts default_config now
    (snd (clear_all_alerts default_config now db))
  = ("0 alertas descartadas", snd (clear_all_alerts default_config now db)).
Proof.
  destruct (clear_all_alerts_store default_config now db) as (Hc & Hm & Hlog).
  set (db1 := snd (clear_all_alerts default_config now db)) in *.
  assert (Hne : family_config db1 <> [])
    by (rewrite Hc; apply get_family_config_nonempty).
  assert (Hcfg : current_config default_config db1
                 = current_config default_config db).
    by (apply current_config_stored; exact Hc).
  destruct (fold_dismiss_if_new now
              (would_be_keys (current_config default_config db) (alert_months db))
              (dismissed_alerts db) 0) as (new_keys & _ & Hin & Hkeys & _).
  rewrite <- Hlog in Hkeys.
  assert (Hknown : forall k,
            In k (would_be_keys (current_config default_config db1)
                    (alert_months db1)) ->
            In k (map DismissedAlert.alert_key (dismissed_alerts db1))).
  { intros k Hk. rewrite Hcfg in Hk.
    assert (Hmonths : alert_months db1 = alert_months db)
      by (unfold alert_months; now rewrite Hm).
    rewrite Hmonths in Hk. rewrite Hkeys, in_app_iff.
    destruct (in_dec String.string_dec k
                (map DismissedAlert.alert_key (dismissed_alerts db)))
      as [Hold|Hnew]; [now left|]. right. apply Hin. tauto. }
  unfold clear_all_alerts.
  pose proof (get_family_config_fixed default_config db1 Hne) as Hfix.
  assert (Hcur : fst (get_family_config default_config db1)
                 = current_config default_config db1) by reflexivity.
  destruct (get_family_config default_config db1) as [config db2].
  simpl in Hfix, Hcur. subst db2 config.
  rewrite (fold_clear_month now (current_config default_config db1)).
  fold (alert_months db1).
  rewrite (fold_dismiss_if_new_known now _ _ 0 Hknown).
  f_equal. now destruct db1.
Qed.

(** X22.  [dismiss_alert] does not deduplicate: every call adds one
    record to the log, also for a key that is there.  While the log
    read stays under 1000 records, dismissing a key again leaves the
    feed as the first dismissal left it. *)
Theorem X22_dismiss_alert_twice (default_config : FamilyConfig.t)
    (now : nat -> string) (db : Db) (k : string) :
  length (dismissed_alerts (snd (dismiss_alert now k (snd (dismiss_alert now k db)))))
  = 2 + length (dismissed_alerts db) /\
  budget_months (snd (dismiss_alert now k db)) = budget_months db /\
  family_config (snd (dismiss_alert now k db)) = family_config db /\
  (length (dismissed_alerts db) < 999 ->
   fst (get_alerts default_config
          (snd (dismiss_alert now k (snd (dismiss_alert now k db)))))
   = fst (get_alerts default_config (snd (dismiss_alert now k db)))).
Proof.
  split; [|split; [reflexivity|split; [reflexivity|]]].
  - unfold dismiss_alert, insert_dismissed. simpl. rewrite !length_app. simpl. lia.
  - intros Hlen. rewrite !get_alerts_ok.
    assert (Hlen1 : length (dismissed_alerts (snd (dismiss_alert now k db))) < 1000).
    { unfold dismiss_alert, insert_dismissed. simpl. rewrite length_app. simpl. lia. }
    rewrite (read_dismissed_keys_dismiss now k _ Hlen1).
    rewrite (read_dismissed_keys_dismiss now k db) by lia.
    rewrite !current_config_dismiss.
    assert (Hdk : read_dismissed_keys db ∪ {[k]} ∪ {[k]}
                  = read_dismissed_keys db ∪ {[k]}).
    { apply set_eq. intros x. rewrite !elem_of_union. tauto. }
    rewrite Hdk. reflexivity.
Qed.

Lemma X22_dismiss_alert_twice_witness :
  length (dismissed_alerts one_dismissed_db) < 999 /\
  fst (get_alerts sample_config
         (snd (dismiss_alert sample_clock "2024-1-fixed-Renta"
                 (snd (dismiss_alert sample_clock "2024-1-fixed-Renta"
                         one_dismissed_db)))))
  = fst (get_alerts sample_config
           (snd (dismiss_alert sample_clock "2024-1-fixed-Renta" one_dismissed_db))).
Proof.
  assert (Hlen : length (dismissed_alerts one_dismissed_db) < 999) by (simpl; lia).
  split; [exact Hlen|].
  exact (proj2 (proj2 (proj2
           (X22_dismiss_alert_twice sample_config sample_clock one_dismissed_db
              "2024-1-fixed-Renta"))) Hlen).
Defined.

(** X23.  For a year the store had no document of, the summary after
    [create_year] has the twelve months in order, January to December
    by name, each with income, expenses and savings 0; the totals are
    0, twelve months are tracked and none remains. *)
Theorem X23_created_year_summary (default_config : FamilyConfig.t) (year : Z)
    (db : Db) :
  year_records year db = [] ->
  exists s,
    fst (get_annual_summary default_config year
           (snd (create_year default_config year db))) = Ok s /\
    map MonthlySummary.month (AnnualSummary.monthly_data s)
    = [1; 2; 3; 4; 5; 6; 7; 8; 9; 10; 11; 12]%Z /\
    map MonthlySummary.month_name (AnnualSummary.monthly_data s)
    = map Some month_names /\
    Forall
      (fun ms =>
         MonthlySummary.income ms = 0%Q /\ MonthlySummary.expenses ms = 0%Q /\
         MonthlySummary.savings ms = 0%Q)
      (AnnualSummary.monthly_data s) /\
    AnnualSummary.total_income s = 0%Q /\
    AnnualSummary.total_expenses s = 0%Q /\
    AnnualSummary.total_savings s = 0%Q /\
    SavingsProjection.months_tracked (AnnualSummary.savings_projection s) = 12 /\
    SavingsProjection.remaining_months (AnnualSummary.savings_projection s) = 0%Z /\
    (SavingsProjection.projected_annual_savings (AnnualSummary.savings_projection s)
     == 0)%Q.
Proof.
  intros Hnone.
  pose proof (find_year_created default_config year db Hnone) as Hfind.
  assert (Hne : find_year year (snd (create_year default_config year db)) <> [])
    by (rewrite Hfind; discriminate).
  destruct (get_annual_summary_ok default_config year _ Hne)
    as (s & Hs & Hmd & Hti & Hte & Hts & _).
  destruct (get_annual_summary_projection default_config year _ Hne)
    as (s' & Hs' & Hp & _).
  rewrite Hs in Hs'. injection Hs' as <-.
  exists s. split; [exact Hs|].
  assert (Hinc : AnnualSummary.total_income s = 0%Q).
  { rewrite Hti, Hfind, map_map. apply py_sum_zeros, List.Forall_map.
    apply List.Forall_forall. intros i _. apply empty_month_income. }
  assert (Hexp : AnnualSummary.total_expenses s = 0%Q).
  { rewrite Hte, Hfind, map_map. apply py_sum_zeros, List.Forall_map.
    apply List.Forall_forall. intros i _. apply empty_month_expenses. }
  rewrite Hp, Hts, Hinc, Hexp, Hmd, Hfind, !map_map. simpl.
  split; [reflexivity|]. split; [reflexivity|]. split.
  - repeat constructor; simpl;
      rewrite ?empty_month_income, ?empty_month_expenses; reflexivity.
  - repeat split; reflexivity.
Qed.

Lemma X23_created_year_summary_witness :
  year_records 2025 summary_db = [] /\
  exists s,
    fst (get_annual_summary sample_config 2025
           (snd (create_year sample_config 2025 summary_db))) = Ok s /\
    map MonthlySummary.month (AnnualSummary.monthly_data s)
    = [1; 2; 3; 4; 5; 6; 7; 8; 9; 10; 11; 12]%Z /\
    AnnualSummary.total_income s = 0%Q /\
    AnnualSummary.total_expenses s = 0%Q /\
    SavingsProjection.remaining_months (AnnualSummary.savings_projection s) = 0%Z.
Proof.
  assert (Hnone : year_records 2025 summary_db = []) by reflexivity.
  split; [exact Hnone|].
  destruct (X23_created_year_summary sample_config 2025 summary_db Hnone)
    as (s & Hs & Hm & _ & _ & Hi & He & _ & _ & Hr & _).
  exists s. auto.
Defined.
